(** * The candle proxy of [server.py], embedded and verified

    [server.py] is a single FastAPI handler, [get_candles], in front of
    [yfinance.download].  The embedding below follows the handler line by
    line:

    - Python text is a Rocq [string], the bytes of its UTF-8 encoding;
      [str.strip] removes the characters Python counts as white space, in
      ASCII and beyond, and [str.upper] maps [a-z] to [A-Z];
    - Python [float] and the [float64] cells of a frame are Rocq's primitive
      binary64 [float], Python [int] is [Z];
    - exceptions are values of [PyExc], raised in an error monad [Exc];
    - the effects of the handler ([print], the call of [yf.download]) are
      recorded as a trace of [Event]s in the monad [M], the behaviour of
      [yf.download] during the request being a parameter of the handler. *)

From Stdlib Require Import ZArith NArith List String Ascii Bool Lia Sorted.
From Stdlib Require Import Floats.PrimFloat Floats.SpecFloat Floats.FloatOps.
From Stdlib Require Import Floats.FloatAxioms.
Import ListNotations.

Local Open Scope string_scope.
Local Open Scope list_scope.
Local Open Scope Z_scope.

(** String concatenation, as in an f-string or [+] on [str]. *)
Infix "+++" := String.append (at level 60, right associativity).

(** ** Exceptions *)

(** The two exception classes the handler tells apart: FastAPI's
    [HTTPException], raised by the handler only, and every other subclass of
    [Exception], of which the handler reads [str(e)] only. *)
Inductive PyExc : Type :=
| HTTPException (status_code : Z) (detail : string)
| Exception (message : string).

Definition Exc (A : Type) : Type := (PyExc + A)%type.

Definition ret {A} (a : A) : Exc A := inr a.
Definition raise {A} (e : PyExc) : Exc A := inl e.
Definition bind {A B} (m : Exc A) (f : A -> Exc B) : Exc B :=
  match m with
  | inl e => inl e
  | inr a => f a
  end.

Declare Scope exc_scope.
Delimit Scope exc_scope with exc.
Notation "x <- m ;; k" := (bind m (fun x => k))
  (at level 100, m at next level, right associativity) : exc_scope.

(** ** The part of pandas the handler uses *)

Module pd.

(** An index entry.  The handler reads it through [Timestamp.timestamp()]
    only, the POSIX time in seconds as a float. *)
Record Timestamp : Type := { timestamp : float }.

(** Column labels: a flat [Index], or a [MultiIndex] whose labels are
    tuples (level 0, then the other levels). *)
Inductive ColumnIndex : Type :=
| Index (labels : list string)
| MultiIndex (labels : list (string * list string)).

(** A frame: its column labels and its rows in order, each row an index
    entry and one [float64] cell per column.  A missing value is NaN. *)
Record DataFrame : Type :=
  { columns : ColumnIndex;
    rows : list (Timestamp * list float) }.

Definition isinstance_MultiIndex (c : ColumnIndex) : bool :=
  match c with
  | Index _ => false
  | MultiIndex _ => true
  end.

(** [columns.get_level_values(0)] *)
Definition get_level_values_0 (c : ColumnIndex) : list string :=
  match c with
  | Index l => l
  | MultiIndex l => map fst l
  end.

Definition set_columns (df : DataFrame) (c : ColumnIndex) : DataFrame :=
  {| columns := c; rows := rows df |}.

(** The label of a column, as a row carries it: a name under a flat
    [Index], a tuple (the level-0 name, then the other levels) under a
    [MultiIndex]. *)
Inductive Label : Type :=
| Name (name : string)
| Tuple (level0 : string) (others : list string).

(** The labels of the columns, in order. *)
Definition labels_of (c : ColumnIndex) : list Label :=
  match c with
  | Index l => map Name l
  | MultiIndex l => map (fun t => Tuple (fst t) (snd t)) l
  end.

(** [df.empty]: an axis of length 0. *)
Definition empty (df : DataFrame) : bool :=
  (Z.of_nat (List.length (labels_of (columns df))) =? 0)
  || (Z.of_nat (List.length (rows df)) =? 0).

(** A row is kept by [dropna] when none of its cells is missing. *)
Definition notna_row (r : Timestamp * list float) : bool :=
  negb (existsb is_nan (snd r)).

(** [df.dropna()]: with the default [how='any'], over every column. *)
Definition dropna (df : DataFrame) : DataFrame :=
  {| columns := columns df; rows := filter notna_row (rows df) |}.

(** A row as [iterrows] yields it: the cells under the labels of their
    columns. *)
Definition Series : Type := list (Label * float).

(** [df.iterrows()]: each row with its cells under the column labels the
    frame has when it is iterated. *)
Definition iterrows (df : DataFrame) : list (Timestamp * Series) :=
  map (fun r => (fst r, combine (labels_of (columns df)) (snd r)))
      (rows df).

(** What [row[key]] evaluates to: a scalar when [key] is the name of one
    column, the sub-series of the cells it selects when the name is
    duplicated or when the labels are tuples, of which a string selects by
    level 0. *)
Inductive Item : Type :=
| Scalar (x : float)
| SubSeries (xs : list float).

(** The labels a string key selects. *)
Definition selects (key : string) (l : Label) : bool :=
  match l with
  | Name name => String.eqb name key
  | Tuple level0 _ => String.eqb level0 key
  end.

(** [key in row] *)
Definition contains (row : Series) (key : string) : bool :=
  existsb (fun kv => selects key (fst kv)) row.

(** [row[key]]; a key that selects nothing raises [KeyError(key)], whose
    [str] is the [repr] of the key. *)
Definition getitem (row : Series) (key : string) : Exc Item :=
  match filter (fun kv => selects key (fst kv)) row with
  | [] => raise (Exception ("'" +++ key +++ "'"))
  | [(Name _, x)] => ret (Scalar x)
  | kvs => ret (SubSeries (map snd kvs))
  end.

End pd.

(** ** Python built-ins *)

Module Py.

(** A [str] is held as the bytes of its UTF-8 encoding, as the text of a
    request arrives.  [code c] is the value of a byte. *)
Definition code (c : ascii) : N := N_of_ascii c.

(** The white space [str.strip()] removes, character by character in its
    encoding.  In one byte: U+0009..U+000D, U+001C..U+0020. *)
Definition ascii_space (a : ascii) : bool :=
  (((9 <=? code a) && (code a <=? 13))
   || ((28 <=? code a) && (code a <=? 32)))%N.

(** In two bytes: U+0085 (C2 85) and U+00A0 (C2 A0). *)
Definition two_bytes (a b : ascii) : bool :=
  ((code a =? 194) && ((code b =? 133) || (code b =? 160)))%N.

(** In three bytes: U+1680 (E1 9A 80); U+2000..U+200A, U+2028, U+2029 and
    U+202F (E2 80, then 80..8A, A8, A9, AF); U+205F (E2 81 9F); U+3000
    (E3 80 80). *)
Definition three_bytes (a b c : ascii) : bool :=
  (((code a =? 225) && (code b =? 154) && (code c =? 128))
   || ((code a =? 226) && (code b =? 128)
       && (((128 <=? code c) && (code c <=? 138))
           || (code c =? 168) || (code c =? 169) || (code c =? 175)))
   || ((code a =? 226) && (code b =? 129) && (code c =? 159))
   || ((code a =? 227) && (code b =? 128) && (code c =? 128)))%N.

(** The number of bytes of the white space character [s] starts with, 0
    when it starts with none. *)
Definition space_width (s : string) : nat :=
  match s with
  | String a r =>
      if ascii_space a then 1
      else match r with
           | String b r' =>
               if two_bytes a b then 2
               else match r' with
                    | String c _ => if three_bytes a b c then 3 else 0
                    | EmptyString => 0
                    end
           | EmptyString => 0
           end
  | EmptyString => 0
  end%nat.

(** [s.lstrip()], [skip] bytes into a white space character. *)
Fixpoint lstrip_from (skip : nat) (s : string) : string :=
  match s with
  | EmptyString => EmptyString
  | String c s' =>
      match skip with
      | S k => lstrip_from k s'
      | O => match space_width s with
             | O => s
             | S k => lstrip_from k s'
             end
      end
  end.

Definition lstrip (s : string) : string := lstrip_from 0 s.

(** [s] holds white space only. *)
Definition all_space (s : string) : bool :=
  match lstrip s with
  | EmptyString => true
  | String _ _ => false
  end.

(** [s.rstrip()]: [s] up to its longest suffix of white space. *)
Fixpoint rstrip (s : string) : string :=
  match s with
  | EmptyString => EmptyString
  | String c s' => if all_space s then EmptyString else String c (rstrip s')
  end.

(** [s.strip()] *)
Definition strip (s : string) : string := rstrip (lstrip s).

(** The uppercase of one byte: that of an ASCII letter.  The bytes of the
    other characters are kept. *)
Definition upper_char (c : ascii) : ascii :=
  let n := N_of_ascii c in
  if ((97 <=? n) && (n <=? 122))%N then ascii_of_N (n - 32) else c.

(** [s.upper()].  [str.upper] also changes letters outside ASCII; none of
    them becomes an ASCII letter or digit of a key of [TIMEFRAME_MAP], the
    only use the handler makes of the result outside ASCII being the
    lookup in that dict. *)
Fixpoint upper (s : string) : string :=
  match s with
  | EmptyString => EmptyString
  | String c s' => String (upper_char c) (upper s')
  end.

(** [sep.join(l)] *)
Fixpoint join (sep : string) (l : list string) : string :=
  match l with
  | [] => ""
  | [x] => x
  | x :: rest => x +++ sep +++ join sep rest
  end.

(** [len(l)] *)
Definition len {A} (l : list A) : Z := Z.of_nat (List.length l).

(** [l[start:]]: a negative start counts from the end, and the start is
    clipped to [0 .. len(l)]. *)
Definition slice_from {A} (l : list A) (start : Z) : list A :=
  let i := if start <? 0 then Z.max (start + len l) 0
           else Z.min start (len l) in
  skipn (Z.to_nat i) l.

(** The integer part of a float, rounded toward zero (0 where the float
    is not finite). *)
Definition trunc (x : float) : Z :=
  match Prim2SF x with
  | S754_finite s m e =>
      let mag := if 0 <=? e then Z.shiftl (Zpos m) e
                 else Z.shiftr (Zpos m) (- e) in
      if s then - mag else mag
  | _ => 0
  end.

(** [int(x)] on a float: [ValueError] on NaN, [OverflowError] on an
    infinity. *)
Definition int_of_float (x : float) : Exc Z :=
  if is_nan x then raise (Exception "cannot convert float NaN to integer")
  else if is_infinity x
       then raise (Exception "cannot convert float infinity to integer")
       else ret (trunc x).

(** [float(v)], [int(v)] and [math.isnan(v)] on what [row[key]] gave: a
    scalar cell converts, a sub-series raises [TypeError] (as pandas 3
    has it for every sub-series; pandas 2 still converts, with a warning,
    a sub-series of one cell, which the handler never meets: it flattens
    the labels before it iterates). *)
Definition float (v : pd.Item) : Exc float :=
  match v with
  | pd.Scalar x => ret x
  | pd.SubSeries _ =>
      raise (Exception "cannot convert the series to <class 'float'>")
  end.

Definition int (v : pd.Item) : Exc Z :=
  match v with
  | pd.Scalar x => int_of_float x
  | pd.SubSeries _ =>
      raise (Exception "cannot convert the series to <class 'int'>")
  end.

Definition isnan (v : pd.Item) : Exc bool :=
  match v with
  | pd.Scalar x => ret (is_nan x)
  | pd.SubSeries _ =>
      raise (Exception "cannot convert the series to <class 'float'>")
  end.

(** [d.get(key)] and [d.keys()] on a dict literal, kept in insertion
    order. *)
Fixpoint dict_get {V} (d : list (string * V)) (key : string) : option V :=
  match d with
  | [] => None
  | (k, v) :: d' => if String.eqb k key then Some v else dict_get d' key
  end.

Definition dict_keys {V} (d : list (string * V)) : list string := map fst d.

(** [x in l] for a list of strings. *)
Definition str_in (x : string) (l : list string) : bool :=
  existsb (String.eqb x) l.

End Py.

(** ** Effects: the trace of a request *)

(** What a run of the handler does to the outside: its calls of [print],
    each with the text it is given, and its calls of [yf.download], in
    order. *)
Inductive Event : Type :=
| Print (text : string)
| Download (ticker period interval : string) (progress auto_adjust : bool).

(** A computation of the handler: the events so far, then a value or a
    raised exception. *)
Definition M (A : Type) : Type := (list Event * Exc A)%type.

Definition mret {A} (a : A) : M A := ([], inr a).
Definition mraise {A} (e : PyExc) : M A := ([], inl e).
Definition lift {A} (m : Exc A) : M A := ([], m).

Definition mbind {A B} (m : M A) (f : A -> M B) : M B :=
  match snd m with
  | inl e => (fst m, inl e)
  | inr a => (fst m ++ fst (f a), snd (f a))
  end.

(** [try: body except ... as e: handler(e)] *)
Definition try_except {A} (body : M A) (handler : PyExc -> M A) : M A :=
  match snd body with
  | inl e => (fst body ++ fst (handler e), snd (handler e))
  | inr _ => body
  end.

(** [print(text)] *)
Definition print (text : string) : M unit := ([Print text], inr tt).

Declare Scope io_scope.
Delimit Scope io_scope with io.
Notation "x <- m ;; k" := (mbind m (fun x => k))
  (at level 100, m at next level, right associativity) : io_scope.
Notation "m ;; k" := (mbind m (fun _ => k))
  (at level 100, right associativity) : io_scope.

(** ** The fetch collaborator *)

Module yf.

(** How a call of [yf.download] ends: with a frame, or with an exception
    of the library or the runtime (never an [HTTPException], a class
    yfinance does not know), of which [str(e)] is kept. *)
Inductive Outcome : Type :=
| Returns (df : pd.DataFrame)
| Raises (message : string).

(** The collaborator as the request sees it: the outcome of
    [yf.download(ticker, period=, interval=, progress=, auto_adjust=)]. *)
Definition Collaborator : Type :=
  string -> string -> string -> bool -> bool -> Outcome.

Definition download (fetch : Collaborator)
    (ticker period interval : string) (progress auto_adjust : bool)
  : M pd.DataFrame :=
  ([Download ticker period interval progress auto_adjust],
   match fetch ticker period interval progress auto_adjust with
   | Returns df => inr df
   | Raises message => inl (Exception message)
   end).

End yf.

(** ** server.py *)

Definition TIMEFRAME_MAP : list (string * string) :=
  [ ("Y", "3mo");
    ("Q", "3mo");
    ("M", "1mo");
    ("W", "1wk");
    ("D", "1d");
    ("1H", "1h");
    ("30M", "30m");
    ("15M", "15m") ].

(** The [if tf_key in ["Y", "Q", "M"]: ... else: period = "30d"] chain of
    [get_candles]. *)
Definition period_of (tf_key : string) : string :=
  if Py.str_in tf_key ["Y"; "Q"; "M"] then "max"
  else if String.eqb tf_key "W" then "10y"
  else if String.eqb tf_key "D" then "2y"
  else if String.eqb tf_key "1H" then "730d"
  else "30d".

(** One entry of the response. *)
Record Candle : Type :=
  { time : Z;
    open : float;
    high : float;
    low : float;
    close : float;
    volume : Z }.

(** [int(row['Volume']) if 'Volume' in row and not math.isnan(row['Volume'])
    else 0] *)
Definition volume_of (row : pd.Series) : Exc Z :=
  (cond <- (if pd.contains row "Volume"
            then (v <- pd.getitem row "Volume" ;;
                  nan <- Py.isnan v ;;
                  ret (negb nan))
            else ret false) ;;
   if (cond : bool)
   then (v <- pd.getitem row "Volume" ;; Py.int v)
   else ret 0)%exc.

(** The dict appended for one [(timestamp, row)] of [df.iterrows()], its
    values evaluated in the order they are written. *)
Definition candle_of (ts : pd.Timestamp) (row : pd.Series) : Exc Candle :=
  (t <- Py.int_of_float (pd.timestamp ts * 1000)%float ;;
   o <- (v <- pd.getitem row "Open" ;; Py.float v) ;;
   h <- (v <- pd.getitem row "High" ;; Py.float v) ;;
   l <- (v <- pd.getitem row "Low" ;; Py.float v) ;;
   c <- (v <- pd.getitem row "Close" ;; Py.float v) ;;
   vol <- volume_of row ;;
   ret {| time := t; open := o; high := h; low := l; close := c;
          volume := vol |})%exc.

(** [for timestamp, row in df.iterrows(): candles.append({...})], started
    on the list [candles]. *)
Fixpoint for_iterrows (it : list (pd.Timestamp * pd.Series))
    (candles : list Candle) : Exc (list Candle) :=
  match it with
  | [] => ret candles
  | (ts, row) :: it' =>
      (c <- candle_of ts row ;; for_iterrows it' (candles ++ [c]))%exc
  end.

(** [candles[-limit:] if len(candles) > limit else candles] *)
Definition truncate (candles : list Candle) (limit : Z) : list Candle :=
  if Py.len candles >? limit then Py.slice_from candles (- limit)
  else candles.

(** [if isinstance(df.columns, pd.MultiIndex):
    df.columns = df.columns.get_level_values(0)] *)
Definition flatten_columns (df : pd.DataFrame) : pd.DataFrame :=
  if pd.isinstance_MultiIndex (pd.columns df)
  then pd.set_columns df (pd.Index (pd.get_level_values_0 (pd.columns df)))
  else df.

(** From the fetched frame to the candles: the columns flattened, the rows
    with a missing value dropped, one candle appended per row left. *)
Definition normalize (df : pd.DataFrame) : Exc (list Candle) :=
  let df := flatten_columns df in
  let df := pd.dropna df in
  for_iterrows (pd.iterrows df) [].

(** The line the handler prints before it fetches. *)
Definition request_line (ticker tf_key interval period : string) : string :=
  "Request: " +++ ticker +++ " @ " +++ tf_key +++ " (Interval: "
  +++ interval +++ ", Period: " +++ period +++ ")".

(** The body of the [try] of [get_candles]. *)
Definition fetch_and_normalize (fetch : yf.Collaborator)
    (ticker tf_key interval period : string) (limit : Z) : M (list Candle) :=
  (print (request_line ticker tf_key interval period) ;;
   df <- yf.download fetch ticker period interval false true ;;
   if pd.empty df
   then mraise (HTTPException 404 ("No data found for " +++ ticker))
   else
     candles <- lift (normalize df) ;;
     if Py.len candles <? 10
     then mraise (HTTPException 422
                    ("Insufficient historical data for " +++ tf_key))
     else mret (truncate candles limit))%io.

(** The two [except] clauses of [get_candles]. *)
Definition on_exception (e : PyExc) : M (list Candle) :=
  match e with
  | HTTPException _ _ => mraise e
  | Exception message =>
      (print ("Server Error: " +++ message) ;;
       mraise (HTTPException 500 ("Data Source Error: " +++ message)))%io
  end.

(** [GET /api/candles]: the handler, run against the collaborator [fetch].
    [limit] is the integer FastAPI hands over: the query parameter, or 300
    when the request has none. *)
Definition get_candles (fetch : yf.Collaborator)
    (ticker timeframe : string) (limit : Z) : M (list Candle) :=
  let tf_key := Py.upper (Py.strip timeframe) in
  match Py.dict_get TIMEFRAME_MAP tf_key with
  | None | Some EmptyString =>
      let supported := Py.join ", " (Py.dict_keys TIMEFRAME_MAP) in
      mraise (HTTPException 400
                ("Invalid timeframe: " +++ timeframe +++ ". Supported: "
                 +++ supported))
  | Some interval =>
      let period := period_of tf_key in
      try_except
        (fetch_and_normalize fetch ticker tf_key interval period limit)
        on_exception
  end.

(** ** Reading a run *)

(** The calls of the fetch collaborator in a trace, each as the triple
    (ticker, interval, period) of section 4.2 of the specification. *)
Definition fetch_calls (trace : list Event) : list (string * string * string) :=
  flat_map (fun ev => match ev with
                      | Download ticker period interval _ _ =>
                          [(ticker, interval, period)]
                      | Print _ => []
                      end) trace.

(** [x] occurs in [s] as a substring. *)
Definition occurs_in (x s : string) : Prop :=
  exists before after, s = before +++ x +++ after.

(** A computation that raises no [HTTPException]: what it raises, if
    anything, is an exception of the other kind. *)
Definition raises_plainly {A} (m : Exc A) : Prop :=
  forall e, m = inl e -> exists message, e = Exception message.

(** The cell of a row under a label that occurs exactly once in it. *)
Definition cell (row : pd.Series) (key : string) : option float :=
  match pd.getitem row key with
  | inr (pd.Scalar x) => Some x
  | _ => None
  end.

(** The labelled cells of a row of [df], as the loop of the handler sees
    them: under the level-0 names, the columns having been flattened. *)
Definition series_of (df : pd.DataFrame) (r : pd.Timestamp * list float)
  : pd.Series :=
  combine (map pd.Name (pd.get_level_values_0 (pd.columns df))) (snd r).

(** A row with no missing field: it has one cell under each of the five
    column labels, and none of its cells is NaN. *)
Definition complete_row (df : pd.DataFrame) (r : pd.Timestamp * list float)
  : Prop :=
  (forall key, In key ["Open"; "High"; "Low"; "Close"; "Volume"] ->
               exists x, cell (series_of df r) key = Some x)
  /\ pd.notna_row r = true.

(** The timestamp of a row in milliseconds, as the handler computes it. *)
Definition millis (ts : pd.Timestamp) : Z :=
  Py.trunc (pd.timestamp ts * 1000)%float.

(** A row whose timestamp in milliseconds and whose volume are finite
    numbers. *)
Definition finite_row (df : pd.DataFrame) (r : pd.Timestamp * list float)
  : Prop :=
  is_finite (pd.timestamp (fst r) * 1000)%float = true
  /\ (forall v, cell (series_of df r) "Volume" = Some v -> is_finite v = true).

(** The candle the handler builds from a row, field by field. *)
Definition candle_from (df : pd.DataFrame) (r : pd.Timestamp * list float)
    (c : Candle) : Prop :=
  time c = millis (fst r)
  /\ cell (series_of df r) "Open" = Some (open c)
  /\ cell (series_of df r) "High" = Some (high c)
  /\ cell (series_of df r) "Low" = Some (low c)
  /\ cell (series_of df r) "Close" = Some (close c)
  /\ exists v, cell (series_of df r) "Volume" = Some v
               /\ volume c = Py.trunc v.

(** ** The specification's own words *)

(** The table of section 4.1: key, then (interval, period). *)
Definition table_4_1 : list (string * (string * string)) :=
  [ ("Y", ("3mo", "max"));
    ("Q", ("3mo", "max"));
    ("M", ("1mo", "max"));
    ("W", ("1wk", "10y"));
    ("D", ("1d", "2y"));
    ("1H", ("1h", "730d"));
    ("30M", ("30m", "30d"));
    ("15M", ("15m", "30d")) ].

(** The eight supported keys, in the order the error message lists them. *)
Definition supported_keys : list string :=
  ["Y"; "Q"; "M"; "W"; "D"; "1H"; "30M"; "15M"].

(** The last [k] elements of a series, in their original order. *)
Definition last_k {A} (k : Z) (l : list A) : list A :=
  rev (firstn (Z.to_nat k) (rev l)).

(** ** Frames and collaborators to run the handler on *)

Module Fixture.

(** The columns of a single-ticker download, in the order yfinance gives
    them. *)
Definition ohlcv : pd.ColumnIndex :=
  pd.Index ["Close"; "High"; "Low"; "Open"; "Volume"].

(** One bar at POSIX time [t] with volume [vol]. *)
Definition bar (t vol : float) : pd.Timestamp * list float :=
  ({| pd.timestamp := t |}, [101.5; 103.25; 99.75; 100; vol]%float).

(** Daily bars from [t] on, one per volume. *)
Fixpoint bars (t : float) (vols : list float)
  : list (pd.Timestamp * list float) :=
  match vols with
  | [] => []
  | vol :: vols' => bar t vol :: bars (t + 86400)%float vols'
  end.

Definition daily (vols : list float) : pd.DataFrame :=
  {| pd.columns := ohlcv; pd.rows := bars 1700000000 vols |}.

(** Twelve complete daily bars. *)
Definition twelve : pd.DataFrame :=
  daily [10; 20; 30; 40; 50; 60; 70; 80; 90; 100; 110; 120]%float.

(** Twelve daily bars, the sixth without a volume. *)
Definition twelve_nan_volume : pd.DataFrame :=
  daily [10; 20; 30; 40; 50; nan; 70; 80; 90; 100; 110; 120]%float.

(** The sixth bar of [twelve_nan_volume]: prices present, volume NaN. *)
Definition nan_volume_bar : pd.Timestamp * list float :=
  bar 1700432000 nan.

(** Ten complete bars in descending order of time, one with a negative
    volume. *)
Definition ten_unordered : pd.DataFrame :=
  {| pd.columns := ohlcv;
     pd.rows := rev (bars 1700000000
                       [10; 20; 30; -40; 50; 60; 70; 80; 90; 100]%float) |}.

(** Ten bars with no missing value, one with an infinite volume. *)
Definition ten_infinite_volume : pd.DataFrame :=
  daily [10; 20; 30; infinity; 50; 60; 70; 80; 90; 100]%float.

(** Three bars, each with a missing value. *)
Definition three_nan : pd.DataFrame :=
  daily [nan; nan; nan]%float.

(** Seven complete bars. *)
Definition seven : pd.DataFrame :=
  daily [10; 20; 30; 40; 50; 60; 70]%float.

(** A frame with the columns and no row. *)
Definition no_rows : pd.DataFrame := daily [].

(** A frame without an Open column. *)
Definition no_open : pd.DataFrame :=
  {| pd.columns := pd.Index ["Close"; "High"; "Low"; "Volume"];
     pd.rows := [({| pd.timestamp := 1700000000 |},
                  [101.5; 103.25; 99.75; 10]%float)] |}.

(** A collaborator that returns [df] whatever it is asked. *)
Definition serving (df : pd.DataFrame) : yf.Collaborator :=
  fun _ _ _ _ _ => yf.Returns df.

(** A collaborator that raises an exception with the given message. *)
Definition failing (message : string) : yf.Collaborator :=
  fun _ _ _ _ _ => yf.Raises message.

End Fixture.

(** ** The rest of server.py *)

(** [GET /health]: the dict the handler returns, whatever the request. *)
Definition health_check : list (string * string) := [("status", "ok")].

(** ** The outcomes of a run *)

Section Outcomes.

Variable fetch : yf.Collaborator.
Variables (ticker timeframe : string) (limit : Z).

Local Abbreviation tf_key := (Py.upper (Py.strip timeframe)).
Local Abbreviation period := (period_of (Py.upper (Py.strip timeframe))).

(** What the handler has done on the way to the collaborator. *)
Definition request_events (interval : string) : list Event :=
  [Print (request_line ticker tf_key interval period);
   Download ticker period interval false true].

(** The ways a run of the handler ends, named after the error taxonomy of
    the handler: the trace and the result of each, with what leads to it. *)
Inductive Outcome : M (list Candle) -> Prop :=
| InvalidTimeframe :
    Py.dict_get TIMEFRAME_MAP tf_key = None ->
    Outcome ([], inl (HTTPException 400
                        ("Invalid timeframe: " +++ timeframe
                         +++ ". Supported: Y, Q, M, W, D, 1H, 30M, 15M")))
| NoDataFound interval df :
    Py.dict_get TIMEFRAME_MAP tf_key = Some interval ->
    fetch ticker period interval false true = yf.Returns df ->
    pd.empty df = true ->
    Outcome (request_events interval,
             inl (HTTPException 404 ("No data found for " +++ ticker)))
| InsufficientData interval df candles :
    Py.dict_get TIMEFRAME_MAP tf_key = Some interval ->
    fetch ticker period interval false true = yf.Returns df ->
    pd.empty df = false ->
    normalize df = inr candles ->
    Py.len candles < 10 ->
    Outcome (request_events interval,
             inl (HTTPException 422
                    ("Insufficient historical data for " +++ tf_key)))
| FetchError interval message :
    Py.dict_get TIMEFRAME_MAP tf_key = Some interval ->
    fetch ticker period interval false true = yf.Raises message ->
    Outcome (request_events interval ++ [Print ("Server Error: " +++ message)],
             inl (HTTPException 500 ("Data Source Error: " +++ message)))
| RowError interval df message :
    Py.dict_get TIMEFRAME_MAP tf_key = Some interval ->
    fetch ticker period interval false true = yf.Returns df ->
    pd.empty df = false ->
    normalize df = inl (Exception message) ->
    Outcome (request_events interval ++ [Print ("Server Error: " +++ message)],
             inl (HTTPException 500 ("Data Source Error: " +++ message)))
| Candles interval df candles :
    Py.dict_get TIMEFRAME_MAP tf_key = Some interval ->
    fetch ticker period interval false true = yf.Returns df ->
    pd.empty df = false ->
    normalize df = inr candles ->
    10 <= Py.len candles ->
    Outcome (request_events interval, inr (truncate candles limit)).

End Outcomes.

(** ** More frames *)

Module Frames.

(** Two bars of a frame that has no Volume column. *)
Definition no_volume : pd.DataFrame :=
  {| pd.columns := pd.Index ["Close"; "High"; "Low"; "Open"];
     pd.rows := [({| pd.timestamp := 1700000000 |},
                  [101.5; 103.25; 99.75; 100]%float);
                 ({| pd.timestamp := 1700086400 |},
                  [102.5; 104.25; 98.75; 101]%float)] |}.

(** The twelve bars of [Fixture.twelve] under two-level column labels, as
    yfinance labels the columns of a download by price and ticker. *)
Definition two_level : pd.DataFrame :=
  {| pd.columns := pd.MultiIndex [("Close", ["AAPL"]); ("High", ["AAPL"]);
                                  ("Low", ["AAPL"]); ("Open", ["AAPL"]);
                                  ("Volume", ["AAPL"])];
     pd.rows := pd.rows Fixture.twelve |}.

(** Two bars of a frame that has no Low column. *)
Definition no_low : pd.DataFrame :=
  {| pd.columns := pd.Index ["Close"; "High"; "Open"; "Volume"];
     pd.rows := [({| pd.timestamp := 1700000000 |},
                  [101.5; 103.25; 100; 10]%float);
                 ({| pd.timestamp := 1700086400 |},
                  [102.5; 104.25; 101; 20]%float)] |}.



(** Five daily bars, the second and the fourth without a volume. *)
Definition every_other_nan : pd.DataFrame :=
  Fixture.daily [10; nan; 30; nan; 50]%float.

End Frames.

(** * Properties *)

(** ** The built-ins on small inputs *)

Example strip_upper : Py.upper (Py.strip "  30m	") = "30M".
Proof. reflexivity. Qed.

Example strip_inner_space : Py.strip " 1 h " = "1 h".
Proof. reflexivity. Qed.

(** U+00A0 (C2 A0) before, U+3000 (E3 80 80) and U+2003 (E2 80 83)
    after. *)
Example strip_beyond_ascii :
  Py.upper
    (Py.strip
       (String "194" (String "160"
          ("d" +++ String "227" (String "128" (String "128"
             (String "226" (String "128" (String "131" ""))))))))) = "D".
Proof. reflexivity. Qed.

(** The bytes of U+00E9 (C3 A9) are no white space, before or after. *)
Example strip_keeps_letters :
  Py.strip (String "195" (String "169" " "))
  = String "195" (String "169" "")
  /\ Py.strip (" " +++ String "195" (String "169" ""))
     = String "195" (String "169" "").
Proof. split; reflexivity. Qed.

(** A timeframe of U+00A0 and "d" resolves to "D" and is fetched. *)
Example no_break_space_resolves :
  fetch_calls
    (fst (get_candles (Fixture.serving Fixture.twelve) "AAPL"
            (String "194" (String "160" "d")) 300))
  = [("AAPL", "1d", "2y")].
Proof. reflexivity. Qed.

Example join_keys :
  Py.join ", " (Py.dict_keys TIMEFRAME_MAP) = "Y, Q, M, W, D, 1H, 30M, 15M".
Proof. reflexivity. Qed.

Example slice_last_two : Py.slice_from [1; 2; 3; 4] (-2) = [3; 4].
Proof. reflexivity. Qed.

Example slice_past_the_start : Py.slice_from [1; 2; 3; 4] (-9) = [1; 2; 3; 4].
Proof. reflexivity. Qed.

Example slice_past_the_end : Py.slice_from [1; 2; 3; 4] 9 = [].
Proof. reflexivity. Qed.

Example int_rounds_toward_zero :
  Py.int_of_float (-3.75) = inr (-3) /\ Py.int_of_float 3.75 = inr 3.
Proof. split; reflexivity. Qed.

Example int_of_nan :
  Py.int_of_float nan = inl (Exception "cannot convert float NaN to integer").
Proof. reflexivity. Qed.

Example millis_of_half_second :
  millis {| pd.timestamp := 1700000000.5 |} = 1700000000500.
Proof. reflexivity. Qed.

Example getitem_duplicated_label :
  pd.getitem [(pd.Name "Close", 1%float); (pd.Name "Close", 2%float)] "Close"
  = inr (pd.SubSeries [1; 2]%float).
Proof. reflexivity. Qed.

(** The first end-to-end example of the specification, on twelve rows:
    [timeframe=D&limit=5] answers with the five most recent candles. *)
Example last_five_of_twelve :
  exists candles,
    snd (get_candles (Fixture.serving Fixture.twelve) "AAPL" "D" 5)
    = inr candles
    /\ map time candles
       = [1700604800000; 1700691200000; 1700777600000; 1700864000000;
          1700950400000].
Proof. eexists. split; vm_compute; reflexivity. Qed.

(** ** Dict literals *)

Section Dict.

Context {V : Type}.
Implicit Types (d : list (string * V)) (key : string).

Lemma dict_get_Some d key v :
  Py.dict_get d key = Some v -> In (key, v) d.
Proof.
  induction d as [|[k w] d IH]; simpl; [discriminate|].
  destruct (String.eqb k key) eqn:E.
  - apply String.eqb_eq in E. intros [= ->]. subst. now left.
  - intros H. right. now apply IH.
Qed.

Lemma dict_get_None d key :
  Py.dict_get d key = None <-> ~ In key (Py.dict_keys d).
Proof.
  induction d as [|[k w] d IH]; simpl.
  - split; [intros _ []|reflexivity].
  - destruct (String.eqb k key) eqn:E.
    + apply String.eqb_eq in E. split; [discriminate|]. intros H. exfalso. apply H. now left.
    + apply String.eqb_neq in E. rewrite IH. unfold Py.dict_keys. tauto.
Qed.

End Dict.

(** Every interval of the table is a non-empty string, so [not interval]
    holds for an absent key only. *)
Lemma TIMEFRAME_MAP_interval key interval :
  Py.dict_get TIMEFRAME_MAP key = Some interval -> interval <> "".
Proof.
  intros H. apply dict_get_Some in H. simpl in H.
  repeat (destruct H as [H|H]; [injection H as <- <-; discriminate|]).
  destruct H.
Qed.

Lemma TIMEFRAME_MAP_keys : Py.dict_keys TIMEFRAME_MAP = supported_keys.
Proof. reflexivity. Qed.

(** The table of the specification against the code: its keys are those of
    [TIMEFRAME_MAP], its intervals what the dict holds, its periods what the
    [if] chain selects. *)
Lemma table_4_1_code key interval period :
  In (key, (interval, period)) table_4_1 ->
  Py.dict_get TIMEFRAME_MAP key = Some interval /\ period_of key = period.
Proof.
  simpl. intros H.
  repeat (destruct H as [H|H]; [injection H as <- <- <-; split; reflexivity|]).
  destruct H.
Qed.

Lemma table_4_1_keys : map fst table_4_1 = supported_keys.
Proof. reflexivity. Qed.

(** ** Running the handler *)

Section Handler.

Variable fetch : yf.Collaborator.
Variables (ticker timeframe : string) (limit : Z).

Local Abbreviation tf_key := (Py.upper (Py.strip timeframe)).

(** With a key of the table the handler runs the [try] block. *)
Lemma get_candles_resolved interval :
  Py.dict_get TIMEFRAME_MAP tf_key = Some interval ->
  get_candles fetch ticker timeframe limit
  = try_except
      (fetch_and_normalize fetch ticker tf_key interval (period_of tf_key) limit)
      on_exception.
Proof.
  intros H. unfold get_candles. rewrite H.
  apply TIMEFRAME_MAP_interval in H.
  destruct interval; [contradiction|reflexivity].
Qed.

(** The [try] block, outcome by outcome. *)
Lemma fetch_and_normalize_run interval period :
  fetch_and_normalize fetch ticker tf_key interval period limit
  = ([Print (request_line ticker tf_key interval period);
      Download ticker period interval false true],
     match fetch ticker period interval false true with
     | yf.Raises message => inl (Exception message)
     | yf.Returns df =>
         if pd.empty df
         then inl (HTTPException 404 ("No data found for " +++ ticker))
         else match normalize df with
              | inl e => inl e
              | inr candles =>
                  if Py.len candles <? 10
                  then inl (HTTPException 422
                              ("Insufficient historical data for " +++ tf_key))
                  else inr (truncate candles limit)
              end
     end).
Proof.
  unfold fetch_and_normalize, yf.download, print, mbind, lift, mraise, mret.
  cbn [fst snd app].
  destruct (fetch ticker period interval false true) as [df|message];
    [|reflexivity].
  destruct (pd.empty df); [reflexivity|].
  cbn [fst snd app].
  destruct (normalize df) as [e|candles]; [reflexivity|].
  destruct (Py.len candles <? 10); reflexivity.
Qed.


(** What [try_except] makes of the [try] block: the run of the handler on
    a key of the table, outcome by outcome. *)
Lemma get_candles_run interval :
  Py.dict_get TIMEFRAME_MAP tf_key = Some interval ->
  get_candles fetch ticker timeframe limit
  = let period := period_of tf_key in
    let request := [Print (request_line ticker tf_key interval period);
                    Download ticker period interval false true] in
    let failed message :=
      (request ++ [Print ("Server Error: " +++ message)],
       inl (HTTPException 500 ("Data Source Error: " +++ message))) in
    match fetch ticker period interval false true with
    | yf.Raises message => failed message
    | yf.Returns df =>
        if pd.empty df
        then (request, inl (HTTPException 404 ("No data found for " +++ ticker)))
        else match normalize df with
             | inl (Exception message) => failed message
             | inl (HTTPException status detail) =>
                 (request, inl (HTTPException status detail))
             | inr candles =>
                 if Py.len candles <? 10
                 then (request,
                       inl (HTTPException 422
                              ("Insufficient historical data for " +++ tf_key)))
                 else (request, inr (truncate candles limit))
             end
    end.
Proof.
  intros H. rewrite (get_candles_resolved _ H).
  unfold try_except. rewrite fetch_and_normalize_run. cbn [fst snd].
  destruct (fetch ticker (period_of tf_key) interval false true)
    as [df|message]; [|reflexivity].
  destruct (pd.empty df); [reflexivity|].
  destruct (normalize df) as [[status detail|message]|candles];
    try reflexivity.
  destruct (Py.len candles <? 10); reflexivity.
Qed.

End Handler.

(** ** The normalizer raises no HTTPException *)

Create HintDb plain discriminated.

Lemma plain_ret {A} (a : A) : raises_plainly (ret a).
Proof. intros e [=]. Qed.

Lemma plain_raise {A} message : raises_plainly (@raise A (Exception message)).
Proof. intros e [= <-]. now exists message. Qed.

Lemma plain_bind {A B} (m : Exc A) (f : A -> Exc B) :
  raises_plainly m -> (forall a, raises_plainly (f a)) ->
  raises_plainly (bind m f).
Proof.
  intros Hm Hf e. destruct m as [e'|a]; simpl.
  - intros [= <-]. now apply Hm.
  - apply Hf.
Qed.

Lemma plain_getitem row key : raises_plainly (pd.getitem row key).
Proof.
  unfold pd.getitem.
  destruct (filter _ row) as [|[[name|level0 others] x] [|kv' kvs]];
    first [apply plain_raise|apply plain_ret].
Qed.

Lemma plain_int_of_float x : raises_plainly (Py.int_of_float x).
Proof.
  unfold Py.int_of_float.
  destruct (is_nan x); [apply plain_raise|].
  destruct (is_infinity x); [apply plain_raise|apply plain_ret].
Qed.

Lemma plain_float v : raises_plainly (Py.float v).
Proof. destruct v; [apply plain_ret|apply plain_raise]. Qed.

Lemma plain_int v : raises_plainly (Py.int v).
Proof. destruct v; [apply plain_int_of_float|apply plain_raise]. Qed.

Lemma plain_isnan v : raises_plainly (Py.isnan v).
Proof. destruct v; [apply plain_ret|apply plain_raise]. Qed.

#[local] Hint Resolve plain_ret plain_raise plain_getitem plain_int_of_float
  plain_float plain_int plain_isnan : plain.

Ltac plain_step :=
  repeat first
    [ apply plain_bind; [|intros ?]
    | match goal with |- raises_plainly (if ?b then _ else _) => destruct b end
    | solve [auto with plain] ].

Lemma plain_volume_of row : raises_plainly (volume_of row).
Proof. unfold volume_of. plain_step. Qed.

Lemma plain_candle_of ts row : raises_plainly (candle_of ts row).
Proof. unfold candle_of. pose proof (plain_volume_of row). plain_step. Qed.

Lemma plain_for_iterrows it : forall candles,
  raises_plainly (for_iterrows it candles).
Proof.
  induction it as [|[ts row] it IH]; intros candles; simpl.
  - apply plain_ret.
  - apply plain_bind; [apply plain_candle_of|intros c; apply IH].
Qed.

Lemma plain_normalize df : raises_plainly (normalize df).
Proof. apply plain_for_iterrows. Qed.

(** ** Strings *)

Lemma append_nil_r s : s +++ "" = s.
Proof. induction s as [|c s IH]; simpl; [reflexivity|now rewrite IH]. Qed.

Lemma append_assoc s t u : (s +++ t) +++ u = s +++ t +++ u.
Proof. induction s as [|c s IH]; simpl; [reflexivity|now rewrite IH]. Qed.

(** ** Timeframe resolution (section 4.1) *)

(** The requests a run sends to the collaborator, on a key of the table:
    one, for the interval of the dict and the period of the [if] chain. *)
Lemma fetch_calls_resolved fetch ticker timeframe limit interval :
  Py.dict_get TIMEFRAME_MAP (Py.upper (Py.strip timeframe)) = Some interval ->
  fetch_calls (fst (get_candles fetch ticker timeframe limit))
  = [(ticker, interval, period_of (Py.upper (Py.strip timeframe)))].
Proof.
  intros H. rewrite (get_candles_run _ _ _ _ _ H). cbv zeta.
  destruct (fetch _ _ _ _ _) as [df|message]; [|reflexivity].
  destruct (pd.empty df); [reflexivity|].
  destruct (normalize df) as [[status detail|message]|candles];
    try reflexivity.
  destruct (Py.len candles <? 10); reflexivity.
Qed.

(** C1: a raw timeframe whose trimmed, uppercased form is one of the eight
    keys resolves to the (interval, period) pair of the table of section
    4.1 (the interval is what [TIMEFRAME_MAP] holds for the key, the period
    what the [if] chain selects), and the handler calls the fetch
    collaborator once, with the ticker and exactly that pair. *)
Theorem C1_timeframe_resolution fetch ticker timeframe limit
    key interval period :
  Py.upper (Py.strip timeframe) = key ->
  In (key, (interval, period)) table_4_1 ->
  Py.dict_get TIMEFRAME_MAP key = Some interval
  /\ period_of key = period
  /\ fetch_calls (fst (get_candles fetch ticker timeframe limit))
     = [(ticker, interval, period)].
Proof.
  intros Hkey Hin. destruct (table_4_1_code _ _ _ Hin) as [Hget Hperiod].
  repeat split; [assumption|assumption|].
  subst key. rewrite (fetch_calls_resolved _ _ _ _ _ Hget).
  now rewrite Hperiod.
Qed.

Lemma C1_timeframe_resolution_witness :
  Py.upper (Py.strip "  1h ") = "1H"
  /\ fetch_calls
       (fst (get_candles (Fixture.serving Fixture.twelve) "AAPL" "  1h " 300))
     = [("AAPL", "1h", "730d")].
Proof.
  split; [reflexivity|].
  apply (C1_timeframe_resolution
           (Fixture.serving Fixture.twelve) "AAPL" "  1h " 300
           "1H" "1h" "730d").
  - reflexivity.
  - simpl. tauto.
Defined.

(** C5: a raw timeframe whose trimmed, uppercased form is none of the eight
    keys makes the handler fail with status 400; the detail holds the input
    as it was given and the eight keys joined by a comma and a space, and
    the run has no event at all, so the fetch collaborator is not called. *)
Theorem C5_invalid_timeframe fetch ticker timeframe limit :
  ~ In (Py.upper (Py.strip timeframe)) supported_keys ->
  exists detail,
    get_candles fetch ticker timeframe limit
    = ([], inl (HTTPException 400 detail))
    /\ detail = "Invalid timeframe: " +++ timeframe
                +++ ". Supported: Y, Q, M, W, D, 1H, 30M, 15M"
    /\ occurs_in timeframe detail
    /\ occurs_in (Py.join ", " supported_keys) detail
    /\ fetch_calls (fst (get_candles fetch ticker timeframe limit)) = [].
Proof.
  intros Hkey. rewrite <- TIMEFRAME_MAP_keys in Hkey.
  apply dict_get_None in Hkey.
  assert (Hrun : get_candles fetch ticker timeframe limit
                 = ([], inl (HTTPException 400
                      ("Invalid timeframe: " +++ timeframe
                       +++ ". Supported: Y, Q, M, W, D, 1H, 30M, 15M")))).
  { unfold get_candles. rewrite Hkey. reflexivity. }
  eexists. split; [exact Hrun|]. split; [reflexivity|].
  split; [|split].
  - exists "Invalid timeframe: ", ". Supported: Y, Q, M, W, D, 1H, 30M, 15M".
    reflexivity.
  - exists ("Invalid timeframe: " +++ timeframe +++ ". Supported: "), "".
    rewrite append_nil_r, !append_assoc. reflexivity.
  - rewrite Hrun. reflexivity.
Qed.

Lemma C5_invalid_timeframe_witness :
  exists detail,
    get_candles (Fixture.serving Fixture.twelve) "AAPL" " xyz" 300
    = ([], inl (HTTPException 400 detail))
    /\ detail = "Invalid timeframe:  xyz. Supported: Y, Q, M, W, D, 1H, 30M, 15M"
    /\ occurs_in " xyz" detail
    /\ occurs_in (Py.join ", " supported_keys) detail
    /\ fetch_calls
         (fst (get_candles (Fixture.serving Fixture.twelve) "AAPL" " xyz" 300))
       = [].
Proof.
  apply (C5_invalid_timeframe (Fixture.serving Fixture.twelve) "AAPL" " xyz" 300).
  simpl. intros H.
  repeat (destruct H as [H|H]; [discriminate H|]). exact H.
Defined.

(** ** Errors (sections 4.2, 4.3 and 7) *)

(** C6: when the fetch collaborator returns a result with no rows, the
    handler fails with status 404 and the detail "No data found for
    <ticker>"; the run prints the request line and nothing after the call,
    so the [except Exception] clause has not turned the 404 into a 500. *)
Theorem C6_no_data_404 fetch ticker timeframe limit interval df :
  Py.dict_get TIMEFRAME_MAP (Py.upper (Py.strip timeframe)) = Some interval ->
  fetch ticker (period_of (Py.upper (Py.strip timeframe))) interval false true
  = yf.Returns df ->
  pd.rows df = [] ->
  get_candles fetch ticker timeframe limit
  = ([Print (request_line ticker (Py.upper (Py.strip timeframe)) interval
               (period_of (Py.upper (Py.strip timeframe))));
      Download ticker (period_of (Py.upper (Py.strip timeframe))) interval
        false true],
     inl (HTTPException 404 ("No data found for " +++ ticker))).
Proof.
  intros Hkey Hfetch Hrows.
  rewrite (get_candles_run _ _ _ _ _ Hkey). cbv zeta. rewrite Hfetch.
  unfold pd.empty. rewrite Hrows. simpl. rewrite orb_true_r. reflexivity.
Qed.

Lemma C6_no_data_404_witness :
  get_candles (Fixture.serving Fixture.no_rows) "NOPE" "15m" 300
  = ([Print "Request: NOPE @ 15M (Interval: 15m, Period: 30d)";
      Download "NOPE" "30d" "15m" false true],
     inl (HTTPException 404 "No data found for NOPE")).
Proof.
  apply (C6_no_data_404 (Fixture.serving Fixture.no_rows) "NOPE" "15m" 300
           "15m" Fixture.no_rows); reflexivity.
Defined.

(** C7: when the fetch result is not empty and normalization (the drop of
    the rows with a missing value included) leaves fewer than 10 candles,
    the handler fails with status 422 and the detail "Insufficient
    historical data for <key>", the key being the trimmed, uppercased
    timeframe. *)
Theorem C7_insufficient_data_422 fetch ticker timeframe limit
    interval df candles :
  Py.dict_get TIMEFRAME_MAP (Py.upper (Py.strip timeframe)) = Some interval ->
  fetch ticker (period_of (Py.upper (Py.strip timeframe))) interval false true
  = yf.Returns df ->
  pd.empty df = false ->
  normalize df = inr candles ->
  Py.len candles < 10 ->
  snd (get_candles fetch ticker timeframe limit)
  = inl (HTTPException 422
           ("Insufficient historical data for "
            +++ Py.upper (Py.strip timeframe))).
Proof.
  intros Hkey Hfetch Hempty Hnorm Hlen.
  rewrite (get_candles_run _ _ _ _ _ Hkey). cbv zeta.
  rewrite Hfetch, Hempty, Hnorm.
  apply Z.ltb_lt in Hlen. rewrite Hlen. reflexivity.
Qed.

Lemma C7_insufficient_data_422_witness :
  snd (get_candles (Fixture.serving Fixture.seven) "AAPL" " w" 300)
  = inl (HTTPException 422 "Insufficient historical data for W").
Proof.
  refine (C7_insufficient_data_422
            (Fixture.serving Fixture.seven) "AAPL" " w" 300
            "1wk" Fixture.seven _ _ _ _ _ _);
    [reflexivity|reflexivity|reflexivity|vm_compute; reflexivity
    |vm_compute; reflexivity].
Defined.

(** C10: when the fetch result is not empty and every row of it has a
    missing value, the handler fails with status 422, not with the 404 of
    an empty result: the frame is tested for emptiness before [dropna]
    removes its rows. *)
Theorem C10_all_rows_null_422 fetch ticker timeframe limit interval df :
  Py.dict_get TIMEFRAME_MAP (Py.upper (Py.strip timeframe)) = Some interval ->
  fetch ticker (period_of (Py.upper (Py.strip timeframe))) interval false true
  = yf.Returns df ->
  pd.empty df = false ->
  Forall (fun r => existsb is_nan (snd r) = true) (pd.rows df) ->
  snd (get_candles fetch ticker timeframe limit)
  = inl (HTTPException 422
           ("Insufficient historical data for "
            +++ Py.upper (Py.strip timeframe)))
  /\ snd (get_candles fetch ticker timeframe limit)
     <> inl (HTTPException 404 ("No data found for " +++ ticker)).
Proof.
  intros Hkey Hfetch Hempty Hnull.
  assert (Hnorm : normalize df = inr []).
  { unfold normalize, pd.dropna, pd.iterrows. cbn [pd.rows pd.columns].
    replace (pd.rows (flatten_columns df)) with (pd.rows df)
      by (unfold flatten_columns; destruct (pd.isinstance_MultiIndex _);
          reflexivity).
    replace (filter pd.notna_row (pd.rows df)) with (@nil (pd.Timestamp * list float));
      [reflexivity|].
    symmetry. induction Hnull as [|r rs Hr _ IH]; [reflexivity|].
    simpl. unfold pd.notna_row at 1. rewrite Hr. exact IH. }
  rewrite (get_candles_run _ _ _ _ _ Hkey). cbv zeta.
  rewrite Hfetch, Hempty, Hnorm. simpl. split; [reflexivity|discriminate].
Qed.

Lemma C10_all_rows_null_422_witness :
  snd (get_candles (Fixture.serving Fixture.three_nan) "AAPL" "D" 300)
  = inl (HTTPException 422 "Insufficient historical data for D")
  /\ snd (get_candles (Fixture.serving Fixture.three_nan) "AAPL" "D" 300)
     <> inl (HTTPException 404 "No data found for AAPL").
Proof.
  refine (C10_all_rows_null_422
            (Fixture.serving Fixture.three_nan) "AAPL" "D" 300
            "1d" Fixture.three_nan _ _ _ _);
    [reflexivity|reflexivity|reflexivity|].
  repeat constructor.
Defined.

(** C8: an exception of the collaborator, or one raised while the rows are
    normalized, makes the handler fail with status 500 and the detail "Data
    Source Error: <message>"; normalization raises no other kind of
    exception; and every run of the handler ends with the candles or with
    an HTTPException of status 400, 404, 422 or 500, never with another
    exception. *)
Theorem C8_other_failures_500 fetch ticker timeframe limit :
  (forall interval message,
      Py.dict_get TIMEFRAME_MAP (Py.upper (Py.strip timeframe)) = Some interval ->
      fetch ticker (period_of (Py.upper (Py.strip timeframe))) interval
        false true = yf.Raises message ->
      snd (get_candles fetch ticker timeframe limit)
      = inl (HTTPException 500 ("Data Source Error: " +++ message)))
  /\ (forall interval df e,
         Py.dict_get TIMEFRAME_MAP (Py.upper (Py.strip timeframe))
         = Some interval ->
         fetch ticker (period_of (Py.upper (Py.strip timeframe))) interval
           false true = yf.Returns df ->
         pd.empty df = false ->
         normalize df = inl e ->
         exists message,
           e = Exception message
           /\ snd (get_candles fetch ticker timeframe limit)
              = inl (HTTPException 500 ("Data Source Error: " +++ message)))
  /\ ((exists candles,
          snd (get_candles fetch ticker timeframe limit) = inr candles)
      \/ (exists status detail,
             snd (get_candles fetch ticker timeframe limit)
             = inl (HTTPException status detail)
             /\ In status [400; 404; 422; 500])).
Proof.
  split; [|split].
  - intros interval message Hkey Hfetch.
    rewrite (get_candles_run _ _ _ _ _ Hkey). cbv zeta.
    rewrite Hfetch. reflexivity.
  - intros interval df e Hkey Hfetch Hempty Hnorm.
    destruct (plain_normalize df e Hnorm) as [message ->].
    exists message. split; [reflexivity|].
    rewrite (get_candles_run _ _ _ _ _ Hkey). cbv zeta.
    rewrite Hfetch, Hempty, Hnorm. reflexivity.
  - destruct (Py.dict_get TIMEFRAME_MAP (Py.upper (Py.strip timeframe)))
      as [interval|] eqn:Hkey.
    + rewrite (get_candles_run _ _ _ _ _ Hkey). cbv zeta.
      destruct (fetch _ _ _ _ _) as [df|message].
      * destruct (pd.empty df).
        { right. do 2 eexists. split; [reflexivity|simpl; tauto]. }
        destruct (normalize df) as [e|candles] eqn:Hnorm.
        { destruct (plain_normalize df e Hnorm) as [message ->].
          right. do 2 eexists. split; [reflexivity|simpl; tauto]. }
        destruct (Py.len candles <? 10).
        { right. do 2 eexists. split; [reflexivity|simpl; tauto]. }
        left. eexists. reflexivity.
      * right. do 2 eexists. split; [reflexivity|simpl; tauto].
    + right. unfold get_candles. rewrite Hkey.
      do 2 eexists. split; [reflexivity|simpl; tauto].
Qed.

Lemma C8_other_failures_500_witness :
  snd (get_candles (Fixture.failing "connection reset") "AAPL" "D" 300)
  = inl (HTTPException 500 "Data Source Error: connection reset")
  /\ snd (get_candles (Fixture.serving Fixture.no_open) "AAPL" "D" 300)
     = inl (HTTPException 500 "Data Source Error: 'Open'").
Proof.
  split.
  - apply (proj1 (C8_other_failures_500
                    (Fixture.failing "connection reset") "AAPL" "D" 300)
             "1d" "connection reset"); reflexivity.
  - destruct (proj1 (proj2 (C8_other_failures_500
                              (Fixture.serving Fixture.no_open) "AAPL" "D" 300))
                "1d" Fixture.no_open (Exception "'Open'")
                eq_refl eq_refl eq_refl eq_refl)
      as [message [Hmsg Hrun]].
    injection Hmsg as <-. exact Hrun.
Defined.

(** ** Truncation (section 4.4) *)

Section Truncate.

Variable candles : list Candle.
Variable limit : Z.

(** A series no longer than the limit is returned as it is. *)
Lemma truncate_short :
  Py.len candles <= limit -> truncate candles limit = candles.
Proof.
  intros H. unfold truncate.
  destruct (Z.gtb_spec (Py.len candles) limit); [lia|reflexivity].
Qed.

(** A series longer than a positive limit loses its first
    [len(candles) - limit] elements. *)
Lemma truncate_long :
  0 < limit < Py.len candles ->
  truncate candles limit
  = skipn (List.length candles - Z.to_nat limit) candles.
Proof.
  intros H. unfold truncate, Py.slice_from.
  destruct (Z.gtb_spec (Py.len candles) limit); [|lia].
  destruct (Z.ltb_spec (- limit) 0); [|lia].
  f_equal. unfold Py.len in *. lia.
Qed.

(** [candles[-0:]] is [candles[0:]]: the whole series. *)
Lemma truncate_zero : limit = 0 -> truncate candles limit = candles.
Proof.
  intros ->. unfold truncate, Py.slice_from.
  destruct (Py.len candles >? 0); [|reflexivity].
  change (- 0 <? 0) with false. cbv iota.
  rewrite Z.min_l by (unfold Py.len; lia). reflexivity.
Qed.

(** With a negative limit the slice starts at index [-limit]. *)
Lemma truncate_negative :
  limit < 0 -> truncate candles limit = skipn (Z.to_nat (- limit)) candles.
Proof.
  intros H. unfold truncate, Py.slice_from.
  destruct (Z.gtb_spec (Py.len candles) limit); [|unfold Py.len in *; lia].
  destruct (Z.ltb_spec (- limit) 0); [lia|].
  destruct (Z.le_ge_cases (- limit) (Py.len candles)) as [Hle|Hge].
  - now rewrite Z.min_l.
  - rewrite Z.min_r by assumption.
    rewrite !skipn_all2; [reflexivity| |]; unfold Py.len in *; lia.
Qed.

End Truncate.

Lemma last_k_skipn {A} (k : Z) (l : list A) :
  last_k k l = skipn (List.length l - Z.to_nat k) l.
Proof. unfold last_k. now rewrite firstn_rev, rev_involutive. Qed.

Lemma len_skipn {A} (n : nat) (l : list A) :
  Py.len (skipn n l) = Z.max 0 (Py.len l - Z.of_nat n).
Proof. unfold Py.len. rewrite length_skipn. lia. Qed.

(** The run of the handler when at least 10 candles come out of
    normalization. *)
Lemma get_candles_success fetch ticker timeframe limit interval df candles :
  Py.dict_get TIMEFRAME_MAP (Py.upper (Py.strip timeframe)) = Some interval ->
  fetch ticker (period_of (Py.upper (Py.strip timeframe))) interval false true
  = yf.Returns df ->
  pd.empty df = false ->
  normalize df = inr candles ->
  10 <= Py.len candles ->
  snd (get_candles fetch ticker timeframe limit)
  = inr (truncate candles limit).
Proof.
  intros Hkey Hfetch Hempty Hnorm Hlen.
  rewrite (get_candles_run _ _ _ _ _ Hkey). cbv zeta.
  rewrite Hfetch, Hempty, Hnorm.
  destruct (Z.ltb_spec (Py.len candles) 10); [lia|reflexivity].
Qed.

(** C2, as the code has it: for a series of [L >= 10] candles and a limit
    [K >= 1] the handler returns a series of length [min L K]: the series
    itself when [L <= K], its last [K] elements in their order when
    [L > K]. *)
Theorem C2_truncation_positive_limit fetch ticker timeframe limit
    interval df candles :
  Py.dict_get TIMEFRAME_MAP (Py.upper (Py.strip timeframe)) = Some interval ->
  fetch ticker (period_of (Py.upper (Py.strip timeframe))) interval false true
  = yf.Returns df ->
  pd.empty df = false ->
  normalize df = inr candles ->
  10 <= Py.len candles ->
  1 <= limit ->
  exists result,
    snd (get_candles fetch ticker timeframe limit) = inr result
    /\ Py.len result = Z.min (Py.len candles) limit
    /\ (Py.len candles <= limit -> result = candles)
    /\ (Py.len candles > limit -> result = last_k limit candles).
Proof.
  intros Hkey Hfetch Hempty Hnorm Hlen Hlimit.
  exists (truncate candles limit).
  split; [now apply (get_candles_success _ _ _ _ _ _ _ Hkey Hfetch)|].
  destruct (Z.le_gt_cases (Py.len candles) limit) as [Hle|Hgt].
  - rewrite truncate_short by assumption.
    split; [lia|]. split; [reflexivity|lia].
  - rewrite truncate_long, <- last_k_skipn by lia.
    split; [|split; [lia|reflexivity]].
    rewrite last_k_skipn, len_skipn. unfold Py.len in *. lia.
Qed.

Lemma C2_truncation_positive_limit_witness :
  exists result,
    snd (get_candles (Fixture.serving Fixture.twelve) "AAPL" "D" 5)
    = inr result
    /\ Py.len result = 5
    /\ map volume result = [80; 90; 100; 110; 120].
Proof.
  edestruct (C2_truncation_positive_limit
               (Fixture.serving Fixture.twelve) "AAPL" "D" 5
               "1d" Fixture.twelve)
    as [result [Hrun [Hlen [_ Hlast]]]];
    [reflexivity|reflexivity|reflexivity|vm_compute; reflexivity
    |vm_compute; discriminate|lia|].
  exists result. split; [exact Hrun|]. split; [exact Hlen|].
  rewrite Hlast by (vm_compute; reflexivity). vm_compute. reflexivity.
Defined.

(** C2 as stated fails at limit 0: of the twelve candles of the fixture the
    handler returns all twelve, not [min 12 0 = 0] of them, and not the
    last 0 elements. *)
Lemma C2_counterexample :
  exists candles,
    normalize Fixture.twelve = inr candles
    /\ 10 <= Py.len candles
    /\ snd (get_candles (Fixture.serving Fixture.twelve) "AAPL" "D" 0)
       = inr candles
    /\ Py.len candles <> Z.min (Py.len candles) 0
    /\ candles <> last_k 0 candles.
Proof.
  eexists. split; [vm_compute; reflexivity|].
  split; [vm_compute; discriminate|].
  split; [vm_compute; reflexivity|].
  split; [vm_compute; discriminate|].
  vm_compute. discriminate.
Qed.

(** C9: with at least 10 candles out of normalization, limit 0 returns the
    whole series, and a limit [K < 0] returns the series without its first
    [-K] elements, of length [max 0 (L + K)]. *)
Theorem C9_nonpositive_limit fetch ticker timeframe limit
    interval df candles :
  Py.dict_get TIMEFRAME_MAP (Py.upper (Py.strip timeframe)) = Some interval ->
  fetch ticker (period_of (Py.upper (Py.strip timeframe))) interval false true
  = yf.Returns df ->
  pd.empty df = false ->
  normalize df = inr candles ->
  10 <= Py.len candles ->
  (limit = 0 ->
   snd (get_candles fetch ticker timeframe limit) = inr candles)
  /\ (limit < 0 ->
      snd (get_candles fetch ticker timeframe limit)
      = inr (skipn (Z.to_nat (- limit)) candles)
      /\ Py.len (skipn (Z.to_nat (- limit)) candles)
         = Z.max 0 (Py.len candles + limit)).
Proof.
  intros Hkey Hfetch Hempty Hnorm Hlen.
  rewrite (get_candles_success _ _ _ _ _ _ _ Hkey Hfetch Hempty Hnorm Hlen).
  split.
  - intros Hzero. now rewrite truncate_zero.
  - intros Hneg. rewrite truncate_negative by assumption.
    split; [reflexivity|]. rewrite len_skipn. lia.
Qed.

Lemma C9_nonpositive_limit_witness :
  (exists candles,
      snd (get_candles (Fixture.serving Fixture.twelve) "AAPL" "D" 0)
      = inr candles
      /\ Py.len candles = 12)
  /\ (exists candles,
         snd (get_candles (Fixture.serving Fixture.twelve) "AAPL" "D" (-3))
         = inr candles
         /\ map volume candles = [40; 50; 60; 70; 80; 90; 100; 110; 120]).
Proof.
  split.
  - eexists. split.
    + refine (proj1 (C9_nonpositive_limit
                       (Fixture.serving Fixture.twelve) "AAPL" "D" 0
                       "1d" Fixture.twelve _ eq_refl eq_refl eq_refl eq_refl _)
                eq_refl).
      vm_compute. discriminate.
    + vm_compute. reflexivity.
  - eexists. split.
    + refine (proj1 (proj2 (C9_nonpositive_limit
                       (Fixture.serving Fixture.twelve) "AAPL" "D" (-3)
                       "1d" Fixture.twelve _ eq_refl eq_refl eq_refl eq_refl _)
                eq_refl)).
      vm_compute. discriminate.
    + vm_compute. reflexivity.
Defined.

(** ** Normalization (section 4.3) *)

Lemma flatten_columns_rows df : pd.rows (flatten_columns df) = pd.rows df.
Proof.
  unfold flatten_columns. now destruct (pd.isinstance_MultiIndex _).
Qed.

Lemma flatten_columns_labels df :
  pd.get_level_values_0 (pd.columns (flatten_columns df))
  = pd.get_level_values_0 (pd.columns df).
Proof.
  unfold flatten_columns. now destruct (pd.isinstance_MultiIndex _).
Qed.

(** After the flattening every column has a name, that of level 0. *)
Lemma flatten_columns_labels_of df :
  pd.labels_of (pd.columns (flatten_columns df))
  = map pd.Name (pd.get_level_values_0 (pd.columns df)).
Proof.
  destruct df as [[l|l] rows]; reflexivity.
Qed.

(** The rows the loop of the handler iterates over: those of the fetched
    frame that have no missing value, under the level-0 labels. *)
Lemma normalize_unfold df :
  normalize df
  = for_iterrows
      (map (fun r => (fst r, series_of df r))
           (filter pd.notna_row (pd.rows df))) [].
Proof.
  unfold normalize, pd.iterrows, pd.dropna, series_of.
  cbn [pd.rows pd.columns].
  now rewrite flatten_columns_rows, flatten_columns_labels_of.
Qed.

Lemma cell_getitem row key x :
  cell row key = Some x -> pd.getitem row key = inr (pd.Scalar x).
Proof.
  unfold cell. destruct (pd.getitem row key) as [e|[y|ys]]; try discriminate.
  now intros [= ->].
Qed.

(** A scalar comes from the one cell the key selects. *)
Lemma getitem_Scalar row key x :
  pd.getitem row key = inr (pd.Scalar x) ->
  exists l, In (l, x) row /\ pd.selects key l = true.
Proof.
  unfold pd.getitem.
  destruct (filter _ row) as [|[[name|level0 others] y] [|kv' kvs]] eqn:E;
    try discriminate.
  intros [= <-]. exists (pd.Name name).
  assert (Hin : In (pd.Name name, y) [(pd.Name name, y)]) by now left.
  rewrite <- E in Hin. apply filter_In in Hin. exact Hin.
Qed.

(** A row with a missing value is not among the rows [dropna] keeps, in
    whichever column the value is missing. *)
Lemma dropna_drops df r :
  existsb is_nan (snd r) = true ->
  ~ In r (pd.rows (pd.dropna (flatten_columns df))).
Proof.
  intros Hnan Hin. cbn [pd.dropna pd.rows] in Hin.
  apply filter_In in Hin. destruct Hin as [_ Hkeep].
  unfold pd.notna_row in Hkeep. rewrite Hnan in Hkeep. discriminate.
Qed.

(** So the loop never meets a NaN volume: the [else 0] of the volume
    expression is reached only when the frame has no Volume column. *)
Lemma loop_volume_notna df ts row v :
  In (ts, row) (pd.iterrows (pd.dropna (flatten_columns df))) ->
  cell row "Volume" = Some v -> is_nan v = false.
Proof.
  unfold pd.iterrows. intros Hin Hcell.
  apply in_map_iff in Hin. destruct Hin as [r [[= <- <-] Hr]].
  cbn [pd.dropna pd.rows] in Hr. apply filter_In in Hr.
  destruct Hr as [_ Hkeep]. unfold pd.notna_row in Hkeep.
  apply negb_true_iff in Hkeep.
  apply cell_getitem, getitem_Scalar in Hcell.
  destruct Hcell as [l [Hkv _]]. apply in_combine_r in Hkv.
  destruct (is_nan v) eqn:Hv; [|reflexivity].
  assert (existsb is_nan (snd r) = true)
    by (apply existsb_exists; now exists v).
  congruence.
Qed.

(** The loop appends one candle per row, in the order of the rows. *)
Lemma for_iterrows_Forall2 it result :
  Forall2 (fun r c => candle_of (fst r) (snd r) = inr c) it result ->
  forall candles, for_iterrows it candles = inr (candles ++ result).
Proof.
  induction 1 as [|[ts row] c it result Hc _ IH]; intros candles; simpl.
  - now rewrite app_nil_r.
  - simpl in Hc. rewrite Hc. simpl. rewrite IH, <- app_assoc. reflexivity.
Qed.

(** C3, on the code: the sixth of the twelve bars of the fixture has its
    four prices and a NaN volume.  The expression of the handler for one
    row would make a candle with volume 0 of it, but [dropna] has removed
    the row before the loop: the handler returns eleven candles, none of
    them for the time of that bar. *)
Theorem C3_nan_volume_row_dropped :
  In Fixture.nan_volume_bar (pd.rows Fixture.twelve_nan_volume)
  /\ (let row := series_of Fixture.twelve_nan_volume Fixture.nan_volume_bar in
      cell row "Open" = Some 100%float
      /\ cell row "High" = Some 103.25%float
      /\ cell row "Low" = Some 99.75%float
      /\ cell row "Close" = Some 101.5%float
      /\ exists v, cell row "Volume" = Some v /\ is_nan v = true)
  /\ (exists c,
         candle_of (fst Fixture.nan_volume_bar)
           (series_of Fixture.twelve_nan_volume Fixture.nan_volume_bar)
         = inr c
         /\ time c = 1700432000000 /\ volume c = 0)
  /\ (exists candles,
         snd (get_candles (Fixture.serving Fixture.twelve_nan_volume)
                "AAPL" "D" 300) = inr candles
         /\ Py.len candles = 11
         /\ ~ In 1700432000000 (map time candles)).
Proof.
  split; [|split; [|split]].
  - vm_compute. do 5 right. left. reflexivity.
  - cbv zeta. repeat split; try (vm_compute; reflexivity).
    eexists. split; vm_compute; reflexivity.
  - eexists. split; [vm_compute; reflexivity|]. split; reflexivity.
  - eexists. split; [vm_compute; reflexivity|].
    split; [reflexivity|].
    cbn [map time]. intros H.
    repeat (destruct H as [H|H]; [discriminate H|]). exact H.
Qed.

(** *** One row *)

Lemma cell_contains row key x :
  cell row key = Some x -> pd.contains row key = true.
Proof.
  intros H. apply cell_getitem, getitem_Scalar in H.
  destruct H as [l [Hin Hl]].
  apply existsb_exists. now exists (l, x).
Qed.

Lemma is_finite_inv x :
  is_finite x = true -> is_nan x = false /\ is_infinity x = false.
Proof.
  unfold is_finite. intros H. apply negb_true_iff, orb_false_iff in H.
  exact H.
Qed.

Lemma int_of_float_finite x :
  is_finite x = true -> Py.int_of_float x = inr (Py.trunc x).
Proof.
  intros H. apply is_finite_inv in H. destruct H as [Hnan Hinf].
  unfold Py.int_of_float. now rewrite Hnan, Hinf.
Qed.

(** A float that is not below zero has a non-negative integer part. *)
Lemma trunc_nonneg x : (x <? 0)%float = false -> 0 <= Py.trunc x.
Proof.
  intros H. rewrite ltb_spec in H. unfold Py.trunc.
  destruct (Prim2SF x) as [s|s| |s m e]; try lia.
  destruct s; [discriminate H|].
  destruct (0 <=? e).
  - apply Z.shiftl_nonneg. lia.
  - apply Z.shiftr_nonneg. lia.
Qed.

(** The candle of a row that has the five cells and finite numbers. *)
Lemma candle_of_complete df r :
  complete_row df r -> finite_row df r ->
  exists c, candle_of (fst r) (series_of df r) = inr c /\ candle_from df r c.
Proof.
  intros [Hcells _] [Htime Hvol].
  destruct (Hcells "Open") as [o Ho]; [simpl; tauto|].
  destruct (Hcells "High") as [h Hh]; [simpl; tauto|].
  destruct (Hcells "Low") as [l Hl]; [simpl; tauto|].
  destruct (Hcells "Close") as [c Hc]; [simpl; tauto|].
  destruct (Hcells "Volume") as [v Hv]; [simpl; tauto|].
  destruct (is_finite_inv _ (Hvol v Hv)) as [Hnan Hinf].
  exists {| time := millis (fst r); open := o; high := h; low := l;
            close := c; volume := Py.trunc v |}.
  split.
  - unfold candle_of, volume_of.
    rewrite (int_of_float_finite _ Htime).
    rewrite (cell_getitem _ _ _ Ho), (cell_getitem _ _ _ Hh),
      (cell_getitem _ _ _ Hl), (cell_getitem _ _ _ Hc),
      (cell_contains _ _ _ Hv), (cell_getitem _ _ _ Hv).
    cbn [bind ret Py.float Py.isnan Py.int]. rewrite Hnan.
    cbn [negb bind]. unfold Py.int_of_float. rewrite Hnan, Hinf.
    reflexivity.
  - unfold candle_from. cbn [time open high low close volume].
    repeat split; try assumption. now exists v.
Qed.

(** *** All rows *)

Lemma candles_of_complete_rows df rows :
  Forall (complete_row df) rows -> Forall (finite_row df) rows ->
  exists candles,
    Forall2 (fun r c => candle_of (fst r) (series_of df r) = inr c
                        /\ candle_from df r c) rows candles.
Proof.
  induction rows as [|r rows IH]; intros Hc Hf.
  - exists []. constructor.
  - inversion Hc as [|? ? Hr Hrs]; inversion Hf as [|? ? Fr Frs]; subst.
    destruct (candle_of_complete df r Hr Fr) as [c Hcandle].
    destruct (IH Hrs Frs) as [candles Hcandles].
    exists (c :: candles). now constructor.
Qed.

Lemma filter_notna_complete df rows :
  Forall (complete_row df) rows -> filter pd.notna_row rows = rows.
Proof.
  induction 1 as [|r rows [_ Hr] _ IH]; simpl; [reflexivity|].
  now rewrite Hr, IH.
Qed.

Lemma candle_from_loop df rows candles :
  Forall2 (fun r c => candle_of (fst r) (series_of df r) = inr c
                      /\ candle_from df r c) rows candles ->
  Forall2 (fun r c => candle_of (fst r) (snd r) = inr c)
          (map (fun r => (fst r, series_of df r)) rows) candles.
Proof.
  induction 1 as [|r c rows candles [Hc _] _ IH]; simpl.
  - constructor.
  - constructor; [exact Hc|exact IH].
Qed.

Lemma candle_from_times df rows candles :
  Forall2 (candle_from df) rows candles ->
  map time candles = map (fun r => millis (fst r)) rows.
Proof.
  induction 1 as [|r c rows candles [Ht _] _ IH]; simpl; [reflexivity|].
  now rewrite Ht, IH.
Qed.

Lemma candle_from_volumes df rows candles :
  Forall2 (candle_from df) rows candles ->
  Forall (fun r => forall v, cell (series_of df r) "Volume" = Some v ->
                             (v <? 0)%float = false) rows ->
  Forall (fun c => 0 <= volume c) candles.
Proof.
  induction 1 as [|r c rows candles Hc _ IH]; intros Hnonneg;
    constructor.
  - destruct Hc as (_ & _ & _ & _ & _ & v & Hv & ->).
    apply trunc_nonneg. inversion Hnonneg; subst. auto.
  - apply IH. now inversion Hnonneg.
Qed.

(** Of a frame whose rows have no missing field and finite timestamps and
    volumes, the loop makes one candle per row, in the order of the rows,
    from the cells of the row; the volumes are non-negative when those of
    the rows are. *)
Lemma normalize_complete_rows df :
  Forall (complete_row df) (pd.rows df) ->
  Forall (finite_row df) (pd.rows df) ->
  exists candles,
    normalize df = inr candles
    /\ List.length candles = List.length (pd.rows df)
    /\ Forall2 (candle_from df) (pd.rows df) candles
    /\ (Forall (fun r => forall v, cell (series_of df r) "Volume" = Some v ->
                                   (v <? 0)%float = false) (pd.rows df) ->
        Forall (fun c => 0 <= volume c) candles).
Proof.
  intros Hcomplete Hfinite.
  destruct (candles_of_complete_rows df _ Hcomplete Hfinite)
    as [candles Hcandles].
  exists candles.
  assert (Hfrom : Forall2 (candle_from df) (pd.rows df) candles).
  { eapply Forall2_impl; [|exact Hcandles]. now intros r c [_ H]. }
  split; [|split; [|split]].
  - rewrite normalize_unfold, (filter_notna_complete df _ Hcomplete).
    apply (for_iterrows_Forall2 _ candles).
    exact (candle_from_loop _ _ _ Hcandles).
  - symmetry. exact (Forall2_length Hfrom).
  - exact Hfrom.
  - exact (candle_from_volumes _ _ _ Hfrom).
Qed.

(** *** The fixtures *)


Lemma fixture_bar_finite df t vol :
  pd.columns df = Fixture.ohlcv ->
  is_finite (t * 1000)%float = true -> is_finite vol = true ->
  finite_row df (Fixture.bar t vol).
Proof.
  intros Hcols Ht Hvol. unfold finite_row, series_of. rewrite Hcols. split.
  - exact Ht.
  - intros v [= <-]. exact Hvol.
Qed.

Lemma fixture_bar_volume df t vol v :
  pd.columns df = Fixture.ohlcv ->
  cell (series_of df (Fixture.bar t vol)) "Volume" = Some v -> v = vol.
Proof.
  intros Hcols. unfold series_of. rewrite Hcols. now intros [= <-].
Qed.



(** * Further properties of the handler *)

(** ** Every run is one of the six outcomes *)

Lemma get_candles_rejected fetch ticker timeframe limit :
  Py.dict_get TIMEFRAME_MAP (Py.upper (Py.strip timeframe)) = None ->
  get_candles fetch ticker timeframe limit
  = ([], inl (HTTPException 400
                ("Invalid timeframe: " +++ timeframe
                 +++ ". Supported: Y, Q, M, W, D, 1H, 30M, 15M"))).
Proof. intros H. unfold get_candles. now rewrite H. Qed.

Lemma get_candles_Outcome fetch ticker timeframe limit :
  Outcome fetch ticker timeframe limit
    (get_candles fetch ticker timeframe limit).
Proof.
  destruct (Py.dict_get TIMEFRAME_MAP (Py.upper (Py.strip timeframe)))
    as [interval|] eqn:Hkey.
  - rewrite (get_candles_run _ _ _ _ _ Hkey). cbv zeta.
    destruct (fetch _ _ _ _ _) as [df|message] eqn:Hfetch.
    + destruct (pd.empty df) eqn:Hempty.
      { now apply (NoDataFound _ _ _ _ interval df). }
      destruct (normalize df) as [e|candles] eqn:Hnorm.
      { destruct (plain_normalize df e Hnorm) as [message ->].
        now apply (RowError _ _ _ _ interval df). }
      destruct (Z.ltb_spec (Py.len candles) 10).
      * now apply (InsufficientData _ _ _ _ interval df candles).
      * now apply (Candles _ _ _ _ interval df candles).
    + now apply FetchError.
  - rewrite (get_candles_rejected _ _ _ _ Hkey). now apply InvalidTimeframe.
Qed.

Lemma supported_key_resolves key :
  In key supported_keys <-> exists interval,
      Py.dict_get TIMEFRAME_MAP key = Some interval.
Proof.
  rewrite <- TIMEFRAME_MAP_keys. split.
  - intros Hin. destruct (Py.dict_get TIMEFRAME_MAP key) as [i|] eqn:E.
    + now exists i.
    + apply dict_get_None in E. contradiction.
  - intros [i Hi].
    destruct (in_dec string_dec key (Py.dict_keys TIMEFRAME_MAP))
      as [Hin|Hout]; [exact Hin|].
    apply dict_get_None in Hout. congruence.
Qed.

(** Runs are taken apart by their outcome. *)
Ltac by_outcome fetch ticker timeframe limit :=
  let O := fresh "O" in
  let r := fresh "r" in
  let Hr := fresh "Hr" in
  pose proof (get_candles_Outcome fetch ticker timeframe limit) as O;
  remember (get_candles fetch ticker timeframe limit) as r eqn:Hr;
  destruct O; cbn [fst snd] in *.

(** ** What each status means *)

(** X1: a request is answered 400 exactly when its trimmed, uppercased
    timeframe is none of the keys of [TIMEFRAME_MAP], whatever the ticker,
    the limit and the collaborator. *)
Theorem status_400_iff fetch ticker timeframe limit :
  (exists detail,
      snd (get_candles fetch ticker timeframe limit)
      = inl (HTTPException 400 detail))
  <-> ~ In (Py.upper (Py.strip timeframe)) supported_keys.
Proof.
  split.
  - intros [detail H].
    by_outcome fetch ticker timeframe limit; try discriminate H.
    rewrite supported_key_resolves. intros [interval Hi]. congruence.
  - intros Hout. eexists. rewrite get_candles_rejected; [reflexivity|].
    apply dict_get_None. now rewrite TIMEFRAME_MAP_keys.
Qed.

(** X2: a request is answered 404 exactly when its timeframe resolves and the
    collaborator returns a frame that [df.empty] holds of: one with no rows
    or with no columns. *)
Theorem status_404_iff fetch ticker timeframe limit :
  (exists detail,
      snd (get_candles fetch ticker timeframe limit)
      = inl (HTTPException 404 detail))
  <-> exists interval df,
      Py.dict_get TIMEFRAME_MAP (Py.upper (Py.strip timeframe)) = Some interval
      /\ fetch ticker (period_of (Py.upper (Py.strip timeframe))) interval
           false true = yf.Returns df
      /\ pd.empty df = true.
Proof.
  split.
  - intros [detail H].
    by_outcome fetch ticker timeframe limit; try discriminate H.
    now exists interval, df.
  - intros (interval & df & Hkey & Hfetch & Hempty). eexists.
    rewrite (get_candles_run _ _ _ _ _ Hkey). cbv zeta.
    now rewrite Hfetch, Hempty.
Qed.

(** X3: a request is answered 422 exactly when its timeframe resolves, the
    collaborator returns a frame that is not empty, and the loop over the
    rows without a missing value ends with fewer than 10 candles. *)
Theorem status_422_iff fetch ticker timeframe limit :
  (exists detail,
      snd (get_candles fetch ticker timeframe limit)
      = inl (HTTPException 422 detail))
  <-> exists interval df candles,
      Py.dict_get TIMEFRAME_MAP (Py.upper (Py.strip timeframe)) = Some interval
      /\ fetch ticker (period_of (Py.upper (Py.strip timeframe))) interval
           false true = yf.Returns df
      /\ pd.empty df = false
      /\ normalize df = inr candles
      /\ Py.len candles < 10.
Proof.
  split.
  - intros [detail H].
    by_outcome fetch ticker timeframe limit; try discriminate H.
    now exists interval, df, candles.
  - intros (interval & df & candles & Hkey & Hfetch & Hempty & Hnorm & Hlen).
    eexists. rewrite (get_candles_run _ _ _ _ _ Hkey). cbv zeta.
    rewrite Hfetch, Hempty, Hnorm.
    apply Z.ltb_lt in Hlen. now rewrite Hlen.
Qed.

(** X4: a request is answered 500 with a given detail exactly when its
    timeframe resolves and the call of the collaborator, or the loop over
    the rows of a frame that is not empty, raises an exception whose
    message, after "Data Source Error: ", is that detail. *)
Theorem status_500_iff fetch ticker timeframe limit detail :
  snd (get_candles fetch ticker timeframe limit)
  = inl (HTTPException 500 detail)
  <-> exists interval message,
      Py.dict_get TIMEFRAME_MAP (Py.upper (Py.strip timeframe)) = Some interval
      /\ detail = "Data Source Error: " +++ message
      /\ (fetch ticker (period_of (Py.upper (Py.strip timeframe))) interval
            false true = yf.Raises message
          \/ exists df,
              fetch ticker (period_of (Py.upper (Py.strip timeframe))) interval
                false true = yf.Returns df
              /\ pd.empty df = false
              /\ normalize df = inl (Exception message)).
Proof.
  split.
  - intros H.
    by_outcome fetch ticker timeframe limit; try discriminate H;
      injection H as <-; exists interval, message.
    + split; [assumption|]. split; [reflexivity|]. now left.
    + split; [assumption|]. split; [reflexivity|]. right. now exists df.
  - intros (interval & message & Hkey & -> & [Hfetch|(df & Hfetch & Hempty & Hnorm)]);
      rewrite (get_candles_run _ _ _ _ _ Hkey); cbv zeta; rewrite Hfetch.
    + reflexivity.
    + now rewrite Hempty, Hnorm.
Qed.

(** X5: a request is answered with candles exactly when its timeframe
    resolves, the collaborator returns a frame that is not empty, and the
    loop ends with at least 10 candles; the answer is then that series cut
    to the limit. *)
Theorem candles_iff fetch ticker timeframe limit result :
  snd (get_candles fetch ticker timeframe limit) = inr result
  <-> exists interval df candles,
      Py.dict_get TIMEFRAME_MAP (Py.upper (Py.strip timeframe)) = Some interval
      /\ fetch ticker (period_of (Py.upper (Py.strip timeframe))) interval
           false true = yf.Returns df
      /\ pd.empty df = false
      /\ normalize df = inr candles
      /\ 10 <= Py.len candles
      /\ result = truncate candles limit.
Proof.
  split.
  - intros H.
    by_outcome fetch ticker timeframe limit; try discriminate H.
    injection H as <-. now exists interval, df, candles.
  - intros (interval & df & candles & Hkey & Hfetch & Hempty & Hnorm & Hlen & ->).
    now apply (get_candles_success _ _ _ _ interval df).
Qed.

(** X6: [print] is called with the text "Server Error: <message>" exactly
    in the runs that are answered 500 with the detail "Data Source Error:
    <message>": the call in the [except Exception] clause and the response
    carry the same message, and no other call of [print] in any run has
    such a text as its argument.  (The calls are counted, not the lines of
    the output: the request line of a ticker that holds a newline is
    printed over several lines.) *)
Theorem server_error_line_iff fetch ticker timeframe limit message :
  In (Print ("Server Error: " +++ message))
     (fst (get_candles fetch ticker timeframe limit))
  <-> snd (get_candles fetch ticker timeframe limit)
      = inl (HTTPException 500 ("Data Source Error: " +++ message)).
Proof.
  assert (Hrequest : forall interval,
             ~ In (Print ("Server Error: " +++ message))
                  (request_events ticker timeframe interval)).
  { intros interval [H|[H|[]]]; discriminate H. }
  assert (Hlogged : forall interval message',
             In (Print ("Server Error: " +++ message))
                (request_events ticker timeframe interval
                 ++ [Print ("Server Error: " +++ message')]) ->
             message' = message).
  { intros interval message' H. apply in_app_or in H.
    destruct H as [H|[H|[]]]; [now apply Hrequest in H|].
    simpl in H. now injection H. }
  split.
  - intros H.
    by_outcome fetch ticker timeframe limit;
      try (now apply Hrequest in H); try (now destruct H).
    + now rewrite (Hlogged _ _ H).
    + now rewrite (Hlogged _ _ H).
  - intros H.
    by_outcome fetch ticker timeframe limit; try discriminate H;
      injection H as ->; apply in_or_app; right; now left.
Qed.

(** ** The limit *)

(** X7: the limit decides nothing but the cut of a successful answer: two runs
    that differ in the limit only have the same trace, fail with the same
    exception if one of them fails, and succeed together. *)
Theorem limit_only_cuts fetch ticker timeframe limit limit' :
  fst (get_candles fetch ticker timeframe limit)
  = fst (get_candles fetch ticker timeframe limit')
  /\ (forall e,
         snd (get_candles fetch ticker timeframe limit) = inl e ->
         snd (get_candles fetch ticker timeframe limit') = inl e)
  /\ (forall result,
         snd (get_candles fetch ticker timeframe limit) = inr result ->
         exists candles,
           result = truncate candles limit
           /\ snd (get_candles fetch ticker timeframe limit')
              = inr (truncate candles limit')).
Proof.
  destruct (Py.dict_get TIMEFRAME_MAP (Py.upper (Py.strip timeframe)))
    as [interval|] eqn:Hkey.
  - rewrite !(get_candles_run _ _ _ _ _ Hkey). cbv zeta.
    destruct (fetch _ _ _ _ _) as [df|message].
    + destruct (pd.empty df).
      { repeat split; [auto|discriminate]. }
      destruct (normalize df) as [[status detail|message]|candles].
      * repeat split; [auto|discriminate].
      * repeat split; [auto|discriminate].
      * destruct (Py.len candles <? 10).
        { repeat split; [auto|discriminate]. }
        repeat split; [discriminate|].
        intros result [= <-]. now exists candles.
    + repeat split; [auto|discriminate].
  - rewrite !(get_candles_rejected _ _ _ _ Hkey).
    repeat split; [auto|discriminate].
Qed.

Lemma truncate_suffix candles limit :
  exists n, truncate candles limit = skipn n candles.
Proof.
  destruct (Z.le_gt_cases (Py.len candles) limit) as [Hle|Hgt].
  - exists 0%nat. now rewrite truncate_short.
  - destruct (Z.lt_trichotomy limit 0) as [Hneg|[Hzero|Hpos]].
    + eexists. now apply truncate_negative.
    + exists 0%nat. now rewrite truncate_zero.
    + eexists. apply truncate_long. lia.
Qed.

Lemma truncate_len_positive candles limit :
  1 <= limit -> Py.len (truncate candles limit) = Z.min (Py.len candles) limit.
Proof.
  intros Hpos.
  destruct (Z.le_gt_cases (Py.len candles) limit) as [Hle|Hgt].
  - rewrite truncate_short by assumption. lia.
  - rewrite truncate_long, len_skipn by lia. unfold Py.len in *. lia.
Qed.

(** X8: a successful answer is a suffix of the series the loop has built: the
    most recent candles, in their order, whatever the limit.  It keeps at
    least 10 candles when the limit is at least 10, and has exactly
    [limit] candles when the limit is between 1 and 9: the test for 10
    candles comes before the cut. *)
Theorem answer_is_a_suffix fetch ticker timeframe limit result :
  snd (get_candles fetch ticker timeframe limit) = inr result ->
  exists interval df candles n,
    fetch ticker (period_of (Py.upper (Py.strip timeframe))) interval
      false true = yf.Returns df
    /\ normalize df = inr candles
    /\ result = skipn n candles
    /\ (10 <= limit -> 10 <= Py.len result)
    /\ (1 <= limit < 10 -> Py.len result = limit).
Proof.
  intros H.
  by_outcome fetch ticker timeframe limit; try discriminate H.
  injection H as <-.
  destruct (truncate_suffix candles limit) as [n Hn].
  exists interval, df, candles, n.
  split; [assumption|]. split; [assumption|]. split; [exact Hn|].
  split; intros Hlimit; rewrite truncate_len_positive by lia; lia.
Qed.

Lemma answer_is_a_suffix_witness :
  exists result interval df candles n,
    snd (get_candles (Fixture.serving Fixture.twelve) "AAPL" "D" 3)
    = inr result
    /\ Fixture.serving Fixture.twelve "AAPL" "2y" interval false true
       = yf.Returns df
    /\ normalize df = inr candles
    /\ result = skipn n candles
    /\ Py.len result = 3.
Proof.
  edestruct (answer_is_a_suffix
               (Fixture.serving Fixture.twelve) "AAPL" "D" 3)
    as (interval & df & candles & n & Hfetch & Hnorm & Hsuffix & _ & Hlen);
    [vm_compute; reflexivity|].
  eexists _, interval, df, candles, n.
  split; [reflexivity|]. split; [exact Hfetch|]. split; [exact Hnorm|].
  split; [exact Hsuffix|]. apply Hlen. lia.
Defined.

(** X9: with at least 10 candles out of the loop the answer is still the empty
    list exactly when the limit is negative and at least as large, in
    absolute value, as the number of candles. *)
Theorem empty_answer_iff fetch ticker timeframe limit interval df candles :
  Py.dict_get TIMEFRAME_MAP (Py.upper (Py.strip timeframe)) = Some interval ->
  fetch ticker (period_of (Py.upper (Py.strip timeframe))) interval false true
  = yf.Returns df ->
  pd.empty df = false ->
  normalize df = inr candles ->
  10 <= Py.len candles ->
  (snd (get_candles fetch ticker timeframe limit) = inr []
   <-> limit <= - Py.len candles).
Proof.
  intros Hkey Hfetch Hempty Hnorm Hlen.
  rewrite (get_candles_success _ _ _ _ _ _ _ Hkey Hfetch Hempty Hnorm Hlen).
  assert (Hnil : forall l : list Candle, l = [] <-> Py.len l = 0).
  { intros l. unfold Py.len. destruct l; simpl; split;
      intros; try reflexivity; try discriminate; lia. }
  split.
  - intros [= H]. apply Hnil in H.
    destruct (Z.lt_trichotomy limit 0) as [Hneg|[Hzero|Hpos]].
    + rewrite truncate_negative, len_skipn in H by assumption. lia.
    + rewrite truncate_zero in H by assumption. lia.
    + rewrite truncate_len_positive in H by lia. lia.
  - intros H. f_equal. apply Hnil.
    rewrite truncate_negative, len_skipn by lia. lia.
Qed.

Lemma empty_answer_iff_witness :
  snd (get_candles (Fixture.serving Fixture.twelve) "AAPL" "D" (-12))
  = inr [].
Proof.
  refine (proj2 (empty_answer_iff
                   (Fixture.serving Fixture.twelve) "AAPL" "D" (-12)
                   "1d" Fixture.twelve _ eq_refl eq_refl eq_refl eq_refl _) _).
  - vm_compute. discriminate.
  - vm_compute. discriminate.
Defined.

(** ** The timeframe *)

(** X10: of a timeframe that resolves the handler uses the trimmed, uppercased
    form only: two timeframes with the same such form have the same run,
    trace and result. *)
Theorem same_key_same_run fetch ticker timeframe timeframe' limit :
  Py.upper (Py.strip timeframe) = Py.upper (Py.strip timeframe') ->
  In (Py.upper (Py.strip timeframe)) supported_keys ->
  get_candles fetch ticker timeframe limit
  = get_candles fetch ticker timeframe' limit.
Proof.
  intros Hsame Hin. apply supported_key_resolves in Hin.
  destruct Hin as [interval Hkey].
  rewrite (get_candles_run _ _ timeframe _ _ Hkey).
  rewrite Hsame in Hkey.
  rewrite (get_candles_run _ _ timeframe' _ _ Hkey).
  now rewrite Hsame.
Qed.

Lemma same_key_same_run_witness :
  get_candles (Fixture.serving Fixture.twelve) "AAPL" " 1h" 300
  = get_candles (Fixture.serving Fixture.twelve) "AAPL" "1H  " 300.
Proof.
  apply (same_key_same_run
           (Fixture.serving Fixture.twelve) "AAPL" " 1h" "1H  " 300).
  - reflexivity.
  - simpl. tauto.
Defined.

(** *** White space around the timeframe *)

(** **** The bytes of white space *)

Lemma ascii_space_low a : Py.ascii_space a = true -> (Py.code a <= 32)%N.
Proof.
  unfold Py.ascii_space.
  rewrite orb_true_iff, !andb_true_iff, !N.leb_le. lia.
Qed.

Lemma two_bytes_codes a b :
  Py.two_bytes a b = true ->
  (Py.code a = 194 /\ 128 <= Py.code b < 192)%N.
Proof.
  unfold Py.two_bytes.
  rewrite andb_true_iff, orb_true_iff, !N.eqb_eq. lia.
Qed.

Lemma three_bytes_codes a b c :
  Py.three_bytes a b c = true ->
  (225 <= Py.code a <= 227 /\ 128 <= Py.code b < 192
   /\ 128 <= Py.code c < 192)%N.
Proof.
  unfold Py.three_bytes.
  rewrite !orb_true_iff, !andb_true_iff, !orb_true_iff, !andb_true_iff,
    !N.eqb_eq, !N.leb_le. lia.
Qed.

(** A white space character starts with a byte that is no continuation
    byte. *)
Lemma space_width_start a r :
  Py.space_width (String a r) <> 0%nat ->
  (Py.code a <= 32 \/ 192 <= Py.code a)%N.
Proof.
  simpl. destruct (Py.ascii_space a) eqn:E1.
  { intros _. left. now apply ascii_space_low. }
  destruct r as [|b r]; [congruence|].
  destruct (Py.two_bytes a b) eqn:E2.
  { intros _. apply two_bytes_codes in E2. lia. }
  destruct r as [|c r]; [congruence|].
  destruct (Py.three_bytes a b c) eqn:E3; [|congruence].
  intros _. apply three_bytes_codes in E3. lia.
Qed.

Lemma two_bytes_not b r a :
  Py.space_width (String b r) <> 0%nat -> Py.two_bytes a b = false.
Proof.
  intros H. apply space_width_start in H.
  destruct (Py.two_bytes a b) eqn:E; [|reflexivity].
  apply two_bytes_codes in E. lia.
Qed.

Lemma three_bytes_not_2 b r a c :
  Py.space_width (String b r) <> 0%nat -> Py.three_bytes a b c = false.
Proof.
  intros H. apply space_width_start in H.
  destruct (Py.three_bytes a b c) eqn:E; [|reflexivity].
  apply three_bytes_codes in E. lia.
Qed.

Lemma three_bytes_not_3 c r a b :
  Py.space_width (String c r) <> 0%nat -> Py.three_bytes a b c = false.
Proof.
  intros H. apply space_width_start in H.
  destruct (Py.three_bytes a b c) eqn:E; [|reflexivity].
  apply three_bytes_codes in E. lia.
Qed.

Lemma space_width_le s : (Py.space_width s <= String.length s)%nat.
Proof.
  destruct s as [|a [|b [|c r]]]; simpl;
    repeat match goal with
           | |- context [if ?b then _ else _] => destruct b
           end; lia.
Qed.

(** The white space character a string starts with is still there when
    the string goes on. *)
Lemma space_width_app p s k :
  Py.space_width p = S k -> Py.space_width (p +++ s) = S k.
Proof.
  destruct p as [|a [|b [|c r]]]; simpl;
    repeat match goal with
           | |- context [if ?b then _ else _] => destruct b
           end; try discriminate; auto.
Qed.

(** A string that starts with no white space character starts with none
    when white space is put after it. *)
Lemma space_width_keeps u post :
  Py.space_width u = 0%nat -> u <> "" ->
  post = "" \/ Py.space_width post <> 0%nat ->
  Py.space_width (u +++ post) = 0%nat.
Proof.
  intros Hu Hne [->|Hpost]; [now rewrite append_nil_r|].
  destruct post as [|p post]; [now rewrite append_nil_r|].
  destruct u as [|a [|b [|c r]]]; [contradiction| | |]; simpl in *;
    destruct (Py.ascii_space a); try discriminate.
  - rewrite (two_bytes_not p post a Hpost).
    destruct post as [|q post]; [reflexivity|].
    now rewrite (three_bytes_not_2 p (String q post) a q Hpost).
  - destruct (Py.two_bytes a b); [discriminate|].
    now rewrite (three_bytes_not_3 p post a b Hpost).
  - exact Hu.
Qed.

(** **** [lstrip] *)

Lemma lstrip_from_stops p : forall k c t,
  Py.lstrip_from k p = String c t -> Py.space_width (String c t) = 0%nat.
Proof.
  induction p as [|a p IH]; intros k c t; [discriminate|].
  cbn [Py.lstrip_from]. destruct k as [|k]; [|apply IH].
  destruct (Py.space_width (String a p)) as [|w] eqn:W; [|apply IH].
  now intros [= <- <-].
Qed.

Lemma lstrip_fixed t : Py.space_width t = 0%nat -> Py.lstrip t = t.
Proof.
  intros H. destruct t as [|c t]; [reflexivity|].
  unfold Py.lstrip. cbn [Py.lstrip_from]. now rewrite H.
Qed.

Lemma lstrip_empty_start post :
  Py.lstrip post = "" -> post = "" \/ Py.space_width post <> 0%nat.
Proof.
  intros H. destruct post as [|c post]; [now left|]. right.
  intros W. rewrite (lstrip_fixed _ W) in H. discriminate.
Qed.

Lemma lstrip_from_space_app s p : forall k,
  (k <= String.length p)%nat -> Py.lstrip_from k p = "" ->
  Py.lstrip_from k (p +++ s) = Py.lstrip s.
Proof.
  induction p as [|a p IH]; intros k Hk H.
  - simpl in Hk. now replace k with 0%nat by lia.
  - cbn [append Py.lstrip_from] in *. destruct k as [|k].
    + destruct (Py.space_width (String a p)) as [|w] eqn:W; [discriminate|].
      change (String a (p +++ s)) with (String a p +++ s).
      rewrite (space_width_app _ s _ W).
      apply IH; [|exact H].
      pose proof (space_width_le (String a p)) as Hle.
      rewrite W in Hle. simpl in Hle. lia.
    + apply IH; [simpl in Hk; lia|exact H].
Qed.

Lemma lstrip_space_app pre s :
  Py.lstrip pre = "" -> Py.lstrip (pre +++ s) = Py.lstrip s.
Proof. intros H. apply lstrip_from_space_app; [lia|exact H]. Qed.

(** White space after a string is left to [lstrip] only when the string
    is white space itself. *)
Lemma lstrip_from_app_space post t : forall k,
  Py.lstrip post = "" -> (k <= String.length t)%nat ->
  Py.lstrip_from k (t +++ post)
  = match Py.lstrip_from k t with
    | EmptyString => EmptyString
    | String c u => String c u +++ post
    end.
Proof.
  induction t as [|a t IH]; intros k Hpost Hk.
  - simpl in Hk. replace k with 0%nat by lia. exact Hpost.
  - cbn [append Py.lstrip_from]. destruct k as [|k].
    + change (String a (t +++ post)) with (String a t +++ post).
      destruct (Py.space_width (String a t)) as [|w] eqn:W.
      * rewrite (space_width_keeps _ post W);
          [reflexivity|discriminate|now apply lstrip_empty_start].
      * rewrite (space_width_app _ post _ W). apply IH; [exact Hpost|].
        pose proof (space_width_le (String a t)) as Hle.
        rewrite W in Hle. simpl in Hle. lia.
    + apply IH; [exact Hpost|simpl in Hk; lia].
Qed.

Lemma all_space_app t post :
  Py.lstrip post = "" -> Py.all_space (t +++ post) = Py.all_space t.
Proof.
  intros Hpost. unfold Py.all_space, Py.lstrip.
  rewrite (lstrip_from_app_space post t 0 Hpost) by lia.
  now destruct (Py.lstrip_from 0 t).
Qed.

(** **** [rstrip] and [strip] *)

Lemma rstrip_all_space s : Py.all_space s = true -> Py.rstrip s = "".
Proof. intros H. destruct s; [reflexivity|]. simpl. now rewrite H. Qed.

Lemma rstrip_app_space t post :
  Py.lstrip post = "" -> Py.rstrip (t +++ post) = Py.rstrip t.
Proof.
  intros Hpost. induction t as [|c t IH].
  - simpl. apply rstrip_all_space. unfold Py.all_space. now rewrite Hpost.
  - cbn [append Py.rstrip].
    change (String c (t +++ post)) with (String c t +++ post).
    rewrite (all_space_app _ _ Hpost), IH. reflexivity.
Qed.

(** A string [strip] empties holds white space only: [lstrip] empties it
    too. *)
Lemma strip_empty s : Py.strip s = "" -> Py.lstrip s = "".
Proof.
  unfold Py.strip. destruct (Py.lstrip s) as [|c t] eqn:E; [reflexivity|].
  intros H. exfalso. apply lstrip_from_stops in E.
  simpl in H. destruct (Py.all_space (String c t)) eqn:A; [|discriminate].
  unfold Py.all_space in A. rewrite (lstrip_fixed _ E) in A. discriminate.
Qed.

Lemma strip_app_space s post :
  Py.lstrip post = "" -> Py.strip (s +++ post) = Py.strip s.
Proof.
  intros Hpost. unfold Py.strip, Py.lstrip.
  rewrite (lstrip_from_app_space post s 0 Hpost) by lia.
  destruct (Py.lstrip_from 0 s) as [|c u]; [reflexivity|].
  now apply rstrip_app_space.
Qed.

(** X11: white space before and after the timeframe does not reach the key:
    whatever strings of white space (strings that [strip] empties) are put
    around it, the trimmed, uppercased form is the same. *)
Theorem surrounding_space_ignored before timeframe after :
  Py.strip before = "" -> Py.strip after = "" ->
  Py.upper (Py.strip (before +++ timeframe +++ after))
  = Py.upper (Py.strip timeframe).
Proof.
  intros Hbefore Hafter. apply strip_empty in Hbefore, Hafter.
  f_equal. unfold Py.strip at 1.
  rewrite (lstrip_space_app _ _ Hbefore).
  now apply strip_app_space.
Qed.

Lemma surrounding_space_ignored_witness :
  Py.upper (Py.strip ("  " +++ "d" +++ String "009" (String "010" "")))
  = Py.upper (Py.strip "d").
Proof.
  exact (surrounding_space_ignored
           "  " "d" (String "009" (String "010" "")) eq_refl eq_refl).
Defined.

(** *** The case of the timeframe *)

(** Uppercasing changes ASCII bytes only, into ASCII bytes. *)
Lemma upper_char_code c :
  Py.upper_char c = c
  \/ (Py.code c < 128 /\ Py.code (Py.upper_char c) < 128)%N.
Proof.
  destruct c as [[] [] [] [] [] [] [] []];
    first [left; reflexivity|right; split; reflexivity].
Qed.

Lemma ascii_space_upper c :
  Py.ascii_space (Py.upper_char c) = Py.ascii_space c.
Proof. destruct c as [[] [] [] [] [] [] [] []]; reflexivity. Qed.

Lemma two_bytes_low a b :
  (Py.code a < 128 \/ Py.code b < 128)%N -> Py.two_bytes a b = false.
Proof.
  intros H. destruct (Py.two_bytes a b) eqn:E; [|reflexivity].
  apply two_bytes_codes in E. lia.
Qed.

Lemma three_bytes_low a b c :
  (Py.code a < 128 \/ Py.code b < 128 \/ Py.code c < 128)%N ->
  Py.three_bytes a b c = false.
Proof.
  intros H. destruct (Py.three_bytes a b c) eqn:E; [|reflexivity].
  apply three_bytes_codes in E. lia.
Qed.

Lemma two_bytes_upper a b :
  Py.two_bytes (Py.upper_char a) (Py.upper_char b) = Py.two_bytes a b.
Proof.
  destruct (upper_char_code a) as [->|[Ha Ha']];
    [|rewrite !two_bytes_low by auto; reflexivity].
  destruct (upper_char_code b) as [->|[Hb Hb']];
    [reflexivity|rewrite !two_bytes_low by auto; reflexivity].
Qed.

Lemma three_bytes_upper a b c :
  Py.three_bytes (Py.upper_char a) (Py.upper_char b) (Py.upper_char c)
  = Py.three_bytes a b c.
Proof.
  destruct (upper_char_code a) as [->|[Ha Ha']];
    [|rewrite !three_bytes_low by auto; reflexivity].
  destruct (upper_char_code b) as [->|[Hb Hb']];
    [|rewrite !three_bytes_low by auto; reflexivity].
  destruct (upper_char_code c) as [->|[Hc Hc']];
    [reflexivity|rewrite !three_bytes_low by auto; reflexivity].
Qed.

Lemma space_width_upper s : Py.space_width (Py.upper s) = Py.space_width s.
Proof.
  destruct s as [|a [|b [|c r]]]; simpl;
    rewrite ?ascii_space_upper, ?two_bytes_upper, ?three_bytes_upper;
    reflexivity.
Qed.

Lemma lstrip_from_upper s : forall k,
  Py.lstrip_from k (Py.upper s) = Py.upper (Py.lstrip_from k s).
Proof.
  induction s as [|c s IH]; intros k; [reflexivity|].
  cbn [Py.upper Py.lstrip_from]. destruct k as [|k]; [|apply IH].
  change (String (Py.upper_char c) (Py.upper s)) with (Py.upper (String c s)).
  rewrite space_width_upper.
  destruct (Py.space_width (String c s)); [reflexivity|apply IH].
Qed.

Lemma lstrip_upper s : Py.lstrip (Py.upper s) = Py.upper (Py.lstrip s).
Proof. apply lstrip_from_upper. Qed.

Lemma all_space_upper s : Py.all_space (Py.upper s) = Py.all_space s.
Proof.
  unfold Py.all_space. rewrite lstrip_upper. now destruct (Py.lstrip s).
Qed.

Lemma rstrip_upper s : Py.rstrip (Py.upper s) = Py.upper (Py.rstrip s).
Proof.
  induction s as [|c s IH]; [reflexivity|].
  cbn [Py.upper Py.rstrip].
  change (String (Py.upper_char c) (Py.upper s)) with (Py.upper (String c s)).
  rewrite all_space_upper.
  destruct (Py.all_space (String c s)); [reflexivity|].
  cbn [Py.upper]. now rewrite IH.
Qed.

(** Trimming and uppercasing commute. *)
Lemma strip_upper_comm s : Py.strip (Py.upper s) = Py.upper (Py.strip s).
Proof. unfold Py.strip. now rewrite lstrip_upper, rstrip_upper. Qed.

(** X12: the key does not depend on the case of the timeframe: two timeframes
    that are equal once uppercased have the same trimmed, uppercased
    form. *)
Theorem case_ignored timeframe timeframe' :
  Py.upper timeframe = Py.upper timeframe' ->
  Py.upper (Py.strip timeframe) = Py.upper (Py.strip timeframe').
Proof. intros H. now rewrite <- !strip_upper_comm, H. Qed.

Lemma case_ignored_witness :
  Py.upper (Py.strip " 15m ") = Py.upper (Py.strip " 15M ").
Proof. exact (case_ignored " 15m " " 15M " eq_refl). Defined.

(** *** Keys that share an interval *)

(** In [TIMEFRAME_MAP] and the [if] chain the interval decides the
    period. *)
Lemma interval_decides_period key key' interval :
  Py.dict_get TIMEFRAME_MAP key = Some interval ->
  Py.dict_get TIMEFRAME_MAP key' = Some interval ->
  period_of key = period_of key'.
Proof.
  intros H H'. apply dict_get_Some in H, H'. simpl in H, H'.
  repeat (destruct H as [H|H]; [injection H as <- <-|]); try destruct H;
    repeat (destruct H' as [H'|H']; [injection H' as <-|]);
    try destruct H'; try reflexivity; discriminate.
Qed.

(** X13: two timeframes that resolve to the same interval ("Y" and "Q", both
    "3mo") send the same call to the collaborator and are answered alike:
    with the same result, or both with 422, whose detail names the key. *)
Theorem same_interval_same_answer fetch ticker timeframe timeframe' limit
    interval :
  Py.dict_get TIMEFRAME_MAP (Py.upper (Py.strip timeframe)) = Some interval ->
  Py.dict_get TIMEFRAME_MAP (Py.upper (Py.strip timeframe')) = Some interval ->
  fetch_calls (fst (get_candles fetch ticker timeframe limit))
  = fetch_calls (fst (get_candles fetch ticker timeframe' limit))
  /\ (snd (get_candles fetch ticker timeframe limit)
      = snd (get_candles fetch ticker timeframe' limit)
      \/ (snd (get_candles fetch ticker timeframe limit)
          = inl (HTTPException 422
                   ("Insufficient historical data for "
                    +++ Py.upper (Py.strip timeframe)))
          /\ snd (get_candles fetch ticker timeframe' limit)
             = inl (HTTPException 422
                      ("Insufficient historical data for "
                       +++ Py.upper (Py.strip timeframe'))))).
Proof.
  intros Hkey Hkey'.
  pose proof (interval_decides_period _ _ _ Hkey Hkey') as Hperiod.
  rewrite (fetch_calls_resolved _ _ _ _ _ Hkey),
    (fetch_calls_resolved _ _ _ _ _ Hkey'), Hperiod.
  split; [reflexivity|].
  rewrite (get_candles_run _ _ _ _ _ Hkey), (get_candles_run _ _ _ _ _ Hkey').
  cbv zeta. rewrite Hperiod.
  destruct (fetch _ _ _ _ _) as [df|message]; [|now left].
  destruct (pd.empty df); [now left|].
  destruct (normalize df) as [[status detail|message]|candles];
    try (now left).
  destruct (Py.len candles <? 10); [now right|now left].
Qed.

Lemma same_interval_same_answer_witness :
  fetch_calls (fst (get_candles (Fixture.serving Fixture.seven) "AAPL" "y" 300))
  = fetch_calls (fst (get_candles (Fixture.serving Fixture.seven) "AAPL" "q" 300))
  /\ snd (get_candles (Fixture.serving Fixture.twelve) "AAPL" "y" 300)
     = snd (get_candles (Fixture.serving Fixture.twelve) "AAPL" "q" 300).
Proof.
  split.
  - exact (proj1 (same_interval_same_answer
                    (Fixture.serving Fixture.seven) "AAPL" "y" "q" 300 "3mo"
                    eq_refl eq_refl)).
  - destruct (proj2 (same_interval_same_answer
                       (Fixture.serving Fixture.twelve) "AAPL" "y" "q" 300
                       "3mo" eq_refl eq_refl)) as [H|[H _]].
    + exact H.
    + vm_compute in H. discriminate H.
Defined.

(** ** The rows of the frame *)

Lemma bind_inr {A B} (m : Exc A) (f : A -> Exc B) b :
  bind m f = inr b -> exists a, m = inr a /\ f a = inr b.
Proof. destruct m as [e|a]; simpl; [discriminate|]. intros H. now exists a. Qed.

(** A loop that ends without an exception has appended one candle per row,
    in order. *)
Lemma for_iterrows_inv it : forall candles result,
  for_iterrows it candles = inr result ->
  exists appended,
    result = candles ++ appended
    /\ Forall2 (fun r c => candle_of (fst r) (snd r) = inr c) it appended.
Proof.
  induction it as [|[ts row] it IH]; intros candles result; simpl.
  - intros [= <-]. exists []. split; [now rewrite app_nil_r|constructor].
  - intros H. apply bind_inr in H. destruct H as [c [Hc H]].
    apply IH in H. destruct H as [appended [-> Hrest]].
    exists (c :: appended). split; [now rewrite <- app_assoc|].
    now constructor.
Qed.

(** A loop stops at the first row whose candle raises: the exception is
    that of the row, and the candles appended so far are lost. *)
Lemma for_iterrows_raises before ts row after e : forall candles,
  Forall (fun r => exists c, candle_of (fst r) (snd r) = inr c) before ->
  candle_of ts row = inl e ->
  for_iterrows (before ++ (ts, row) :: after) candles = inl e.
Proof.
  induction before as [|[ts' row'] before IH]; intros candles Hbefore He;
    simpl.
  - now rewrite He.
  - inversion Hbefore as [|? ? [c Hc] Hrest]; subst. simpl in Hc.
    rewrite Hc. simpl. now apply IH.
Qed.

Lemma candle_of_fields ts row c :
  candle_of ts row = inr c ->
  time c = millis ts /\ volume_of row = inr (volume c).
Proof.
  unfold candle_of. intros H.
  apply bind_inr in H. destruct H as [t [Ht H]].
  apply bind_inr in H. destruct H as [o [_ H]].
  apply bind_inr in H. destruct H as [h [_ H]].
  apply bind_inr in H. destruct H as [l [_ H]].
  apply bind_inr in H. destruct H as [cl [_ H]].
  apply bind_inr in H. destruct H as [vol [Hvol H]].
  injection H as <-. cbn [time volume]. split; [|exact Hvol].
  unfold Py.int_of_float in Ht.
  destruct (is_nan _); [discriminate|].
  destruct (is_infinity _); [discriminate|].
  now injection Ht as <-.
Qed.

(** Without the flattening the cells of a row are under tuples, a string
    selects a sub-series, and the first [float(row['Open'])] raises. *)
Example unflattened_rows_raise :
  for_iterrows (pd.iterrows Frames.two_level) []
  = inl (Exception "cannot convert the series to <class 'float'>")
  /\ exists candles,
      for_iterrows (pd.iterrows (flatten_columns Frames.two_level)) []
      = inr candles.
Proof. split; [reflexivity|eexists; vm_compute; reflexivity]. Qed.

(** X14: the frame reaches the response through its rows and the level-0 labels
    of its columns only: two collaborators whose frames agree on both give
    the same run, so the other levels of a [MultiIndex] (the ticker level
    of a download) change nothing. *)
Theorem column_levels_ignored fetch fetch' ticker timeframe limit
    interval df df' :
  Py.dict_get TIMEFRAME_MAP (Py.upper (Py.strip timeframe)) = Some interval ->
  fetch ticker (period_of (Py.upper (Py.strip timeframe))) interval false true
  = yf.Returns df ->
  fetch' ticker (period_of (Py.upper (Py.strip timeframe))) interval false true
  = yf.Returns df' ->
  pd.rows df = pd.rows df' ->
  pd.get_level_values_0 (pd.columns df)
  = pd.get_level_values_0 (pd.columns df') ->
  get_candles fetch ticker timeframe limit
  = get_candles fetch' ticker timeframe limit.
Proof.
  intros Hkey Hfetch Hfetch' Hrows Hlabels.
  rewrite !(get_candles_run _ _ _ _ _ Hkey). cbv zeta.
  rewrite Hfetch, Hfetch'.
  assert (Hcount : forall c, List.length (pd.labels_of c)
                              = List.length (pd.get_level_values_0 c))
    by (intros [l|l]; simpl; now rewrite !length_map).
  assert (Hempty : pd.empty df = pd.empty df')
    by (unfold pd.empty; now rewrite !Hcount, Hrows, Hlabels).
  assert (Hnorm : normalize df = normalize df')
    by (rewrite !normalize_unfold; unfold series_of;
        now rewrite Hrows, Hlabels).
  now rewrite Hempty, Hnorm.
Qed.

Lemma column_levels_ignored_witness :
  get_candles (Fixture.serving Frames.two_level) "AAPL" "D" 5
  = get_candles (Fixture.serving Fixture.twelve) "AAPL" "D" 5.
Proof.
  apply (column_levels_ignored
           (Fixture.serving Frames.two_level) (Fixture.serving Fixture.twelve)
           "AAPL" "D" 5 "1d" Frames.two_level Fixture.twelve);
    reflexivity.
Defined.

Lemma normalize_rows df candles :
  normalize df = inr candles ->
  Forall2 (fun r c => candle_of (fst r) (series_of df r) = inr c)
          (filter pd.notna_row (pd.rows df)) candles.
Proof.
  rewrite normalize_unfold. intros H.
  apply for_iterrows_inv in H. destruct H as [appended [-> H]].
  cbn [app]. remember (filter pd.notna_row (pd.rows df)) as kept eqn:E.
  clear E. revert appended H.
  induction kept as [|r kept IH]; intros appended H;
    inversion H; subst; constructor; auto.
Qed.

(** X15: when the loop ends without an exception, the candles are those of the
    rows that have no missing value in any column, one per row and in the
    order of the rows, each with the milliseconds of its row as time: a
    row with a missing value takes one candle off the series, and no row
    adds or moves one. *)
Theorem one_candle_per_kept_row df candles :
  normalize df = inr candles ->
  Forall2 (fun r c => candle_of (fst r) (series_of df r) = inr c)
          (filter pd.notna_row (pd.rows df)) candles
  /\ List.length candles = List.length (filter pd.notna_row (pd.rows df))
  /\ map time candles
     = map (fun r => millis (fst r)) (filter pd.notna_row (pd.rows df)).
Proof.
  intros H. apply normalize_rows in H.
  split; [exact H|]. split; [symmetry; exact (Forall2_length H)|].
  induction H as [|r c kept candles Hc _ IH]; [reflexivity|].
  simpl. apply candle_of_fields in Hc. destruct Hc as [-> _]. now rewrite IH.
Qed.

Lemma one_candle_per_kept_row_witness :
  exists candles,
    normalize Frames.every_other_nan = inr candles
    /\ List.length candles = 3%nat
    /\ map time candles = [1700000000000; 1700172800000; 1700345600000].
Proof.
  eexists. split; [vm_compute; reflexivity|].
  destruct (one_candle_per_kept_row Frames.every_other_nan _ eq_refl)
    as (_ & Hlen & Htimes).
  split; [exact Hlen|exact Htimes].
Defined.

Lemma normalize_raises df before r after e :
  filter pd.notna_row (pd.rows df) = before ++ r :: after ->
  Forall (fun r => exists c, candle_of (fst r) (series_of df r) = inr c)
         before ->
  candle_of (fst r) (series_of df r) = inl e ->
  normalize df = inl e.
Proof.
  intros Hkept Hbefore He. rewrite normalize_unfold, Hkept, map_app.
  cbn [map]. apply for_iterrows_raises; [|exact He].
  apply Forall_map. exact Hbefore.
Qed.

(** X16: the first row, among those with no missing value, whose candle raises
    an exception decides the answer: 500 with the message of that
    exception.  The candles of the rows before it are not returned, and the
    rows after it are not looked at. *)
Theorem first_failing_row_decides fetch ticker timeframe limit
    interval df before r after message :
  Py.dict_get TIMEFRAME_MAP (Py.upper (Py.strip timeframe)) = Some interval ->
  fetch ticker (period_of (Py.upper (Py.strip timeframe))) interval false true
  = yf.Returns df ->
  pd.empty df = false ->
  filter pd.notna_row (pd.rows df) = before ++ r :: after ->
  Forall (fun r => exists c, candle_of (fst r) (series_of df r) = inr c)
         before ->
  candle_of (fst r) (series_of df r) = inl (Exception message) ->
  snd (get_candles fetch ticker timeframe limit)
  = inl (HTTPException 500 ("Data Source Error: " +++ message)).
Proof.
  intros Hkey Hfetch Hempty Hkept Hbefore Hr.
  rewrite (get_candles_run _ _ _ _ _ Hkey). cbv zeta.
  rewrite Hfetch, Hempty, (normalize_raises _ _ _ _ _ Hkept Hbefore Hr).
  reflexivity.
Qed.

Lemma first_failing_row_decides_witness :
  snd (get_candles (Fixture.serving Fixture.ten_infinite_volume)
         "AAPL" "D" 300)
  = inl (HTTPException 500
           "Data Source Error: cannot convert float infinity to integer").
Proof.
  apply (first_failing_row_decides
           (Fixture.serving Fixture.ten_infinite_volume) "AAPL" "D" 300
           "1d" Fixture.ten_infinite_volume
           (firstn 3 (pd.rows Fixture.ten_infinite_volume))
           (Fixture.bar 1700259200 infinity)
           (skipn 4 (pd.rows Fixture.ten_infinite_volume))).
  - reflexivity.
  - reflexivity.
  - reflexivity.
  - vm_compute. reflexivity.
  - repeat (apply Forall_cons; [eexists; vm_compute; reflexivity|]).
    apply Forall_nil.
  - vm_compute. reflexivity.
Defined.

(** *** Columns that are absent *)

Lemma selected_name names (cells : list float) key l (x : float) :
  In (l, x) (combine (map pd.Name names) cells) ->
  pd.selects key l = true -> In key names.
Proof.
  intros Hin Hl. apply in_combine_l, in_map_iff in Hin.
  destruct Hin as [name [<- Hname]]. simpl in Hl.
  apply String.eqb_eq in Hl. now subst.
Qed.

Lemma contains_absent names cells key :
  ~ In key names ->
  pd.contains (combine (map pd.Name names) cells) key = false.
Proof.
  intros Hout. unfold pd.contains.
  destruct (existsb _ _) eqn:E; [|reflexivity].
  apply existsb_exists in E. destruct E as [[l x] [Hin Hl]].
  exfalso. apply Hout. exact (selected_name _ _ _ _ _ Hin Hl).
Qed.

Lemma getitem_absent names cells key :
  ~ In key names ->
  pd.getitem (combine (map pd.Name names) cells) key
  = inl (Exception ("'" +++ key +++ "'")).
Proof.
  intros Hout. unfold pd.getitem.
  destruct (filter _ _) as [|[l x] kvs] eqn:E; [reflexivity|].
  assert (Hin : In (l, x) ((l, x) :: kvs)) by now left.
  rewrite <- E in Hin. apply filter_In in Hin. destruct Hin as [Hin Hl].
  exfalso. apply Hout. exact (selected_name _ _ _ _ _ Hin Hl).
Qed.

(** X17: when the frame has no Volume column, every candle has volume 0. *)
Theorem absent_volume_is_zero df candles :
  ~ In "Volume" (pd.get_level_values_0 (pd.columns df)) ->
  normalize df = inr candles ->
  Forall (fun c => volume c = 0) candles.
Proof.
  intros Hout Hnorm.
  apply normalize_rows in Hnorm.
  induction Hnorm as [|r c kept candles Hc _ IH]; constructor; [|exact IH].
  apply candle_of_fields in Hc. destruct Hc as [_ Hvol].
  unfold volume_of, series_of in Hvol.
  rewrite (contains_absent _ _ _ Hout) in Hvol. simpl in Hvol.
  now injection Hvol.
Qed.

Lemma absent_volume_is_zero_witness :
  exists candles,
    normalize Frames.no_volume = inr candles
    /\ map time candles = [1700000000000; 1700086400000]
    /\ Forall (fun c => volume c = 0) candles.
Proof.
  eexists. split; [vm_compute; reflexivity|]. split; [reflexivity|].
  apply (absent_volume_is_zero Frames.no_volume).
  - simpl. intros H.
    repeat (destruct H as [H|H]; [discriminate H|]). exact H.
  - reflexivity.
Defined.

(** X18: when the frame lacks one of the columns Open, High, Low and Close, and
    at least one of its rows has no missing value, the answer is 500 with
    the name of the first column that is lacking, in quotes, as the
    message: the [KeyError] of the first row.  (The columns before it are
    taken to hold one cell each, and the timestamp of the row to be
    finite.) *)
Theorem missing_price_column_500 fetch ticker timeframe limit
    interval df r rest before key after :
  Py.dict_get TIMEFRAME_MAP (Py.upper (Py.strip timeframe)) = Some interval ->
  fetch ticker (period_of (Py.upper (Py.strip timeframe))) interval false true
  = yf.Returns df ->
  pd.empty df = false ->
  filter pd.notna_row (pd.rows df) = r :: rest ->
  is_finite (pd.timestamp (fst r) * 1000)%float = true ->
  ["Open"; "High"; "Low"; "Close"] = before ++ key :: after ->
  Forall (fun k => exists x, cell (series_of df r) k = Some x) before ->
  ~ In key (pd.get_level_values_0 (pd.columns df)) ->
  snd (get_candles fetch ticker timeframe limit)
  = inl (HTTPException 500 ("Data Source Error: '" +++ key +++ "'")).
Proof.
  intros Hkey Hfetch Hempty Hkept Hts Hsplit Hbefore Hout.
  assert (Hraise : candle_of (fst r) (series_of df r)
                   = inl (Exception ("'" +++ key +++ "'"))).
  { unfold candle_of. rewrite (int_of_float_finite _ Hts). cbn [bind].
    pose proof (getitem_absent _ (snd r) _ Hout) as Habsent.
    fold (series_of df r) in Habsent.
    destruct before as [|k1 [|k2 [|k3 [|k4 more]]]];
      injection Hsplit; intros; subst;
      repeat match goal with
             | H : Forall _ (_ :: _) |- _ =>
                 let x := fresh "x" in
                 let Hx := fresh "Hx" in
                 inversion H as [|? ? [x Hx] ?]; subst; clear H;
                 apply cell_getitem in Hx; rewrite Hx; cbn [bind Py.float ret]
             end;
      try (rewrite Habsent; reflexivity).
    destruct more; discriminate. }
  rewrite (get_candles_run _ _ _ _ _ Hkey). cbv zeta.
  rewrite Hfetch, Hempty.
  rewrite (normalize_raises df [] r rest _ Hkept (Forall_nil _) Hraise).
  reflexivity.
Qed.

Lemma missing_price_column_500_witness :
  snd (get_candles (Fixture.serving Frames.no_low) "AAPL" "D" 300)
  = inl (HTTPException 500 "Data Source Error: 'Low'").
Proof.
  refine (missing_price_column_500
            (Fixture.serving Frames.no_low) "AAPL" "D" 300
            "1d" Frames.no_low _ _ ["Open"; "High"] "Low" ["Close"]
            eq_refl eq_refl eq_refl eq_refl eq_refl eq_refl _ _).
  - repeat (apply Forall_cons; [eexists; vm_compute; reflexivity|]).
    apply Forall_nil.
  - simpl. intros H.
    repeat (destruct H as [H|H]; [discriminate H|]). exact H.
Defined.

(** *** The fields of a candle *)

Lemma kept_rows_notna df :
  Forall (fun r => pd.notna_row r = true) (filter pd.notna_row (pd.rows df)).
Proof. apply Forall_forall. intros r Hr. now apply filter_In in Hr. Qed.

Lemma cell_in_row df r key v :
  cell (series_of df r) key = Some v -> In v (snd r).
Proof.
  intros H. apply cell_getitem, getitem_Scalar in H.
  destruct H as [l [Hin _]]. now apply in_combine_r in Hin.
Qed.

Lemma notna_cell df r key v :
  pd.notna_row r = true -> cell (series_of df r) key = Some v ->
  is_nan v = false.
Proof.
  intros Hkeep Hcell. apply cell_in_row in Hcell.
  unfold pd.notna_row in Hkeep. apply negb_true_iff in Hkeep.
  destruct (is_nan v) eqn:Hv; [|reflexivity].
  assert (existsb is_nan (snd r) = true)
    by (apply existsb_exists; now exists v).
  congruence.
Qed.

Lemma float_scalar row key x :
  (v <- pd.getitem row key ;; Py.float v)%exc = inr x ->
  cell row key = Some x.
Proof.
  intros H. apply bind_inr in H. destruct H as [v [Hv Hx]].
  unfold cell. rewrite Hv. destruct v; [|discriminate].
  now injection Hx as <-.
Qed.

Lemma candle_of_prices ts row c :
  candle_of ts row = inr c ->
  cell row "Open" = Some (open c) /\ cell row "High" = Some (high c)
  /\ cell row "Low" = Some (low c) /\ cell row "Close" = Some (close c).
Proof.
  unfold candle_of. intros H.
  apply bind_inr in H. destruct H as [t [_ H]].
  apply bind_inr in H. destruct H as [o [Ho H]].
  apply bind_inr in H. destruct H as [h [Hh H]].
  apply bind_inr in H. destruct H as [l [Hl H]].
  apply bind_inr in H. destruct H as [cl [Hc H]].
  apply bind_inr in H. destruct H as [vol [_ H]].
  injection H as <-. cbn [open high low close].
  repeat split; now apply float_scalar.
Qed.

Lemma volume_of_cell row v vol :
  cell row "Volume" = Some v -> is_nan v = false ->
  volume_of row = inr vol -> vol = Py.trunc v.
Proof.
  intros Hcell Hnan. unfold volume_of.
  rewrite (cell_contains _ _ _ Hcell), (cell_getitem _ _ _ Hcell).
  cbn [bind ret Py.isnan Py.int]. rewrite Hnan. cbn [negb bind].
  unfold Py.int_of_float. rewrite Hnan.
  destruct (is_infinity v); [discriminate|]. now intros [= <-].
Qed.

(** X19: with a Volume column, the volume of every candle is the integer part
    of the Volume cell of its row, and that cell is a number: the default
    of 0 for a NaN volume is never used, because no row with a NaN reaches
    the loop. *)
Theorem volume_is_the_cell df candles :
  normalize df = inr candles ->
  Forall2 (fun r c => forall v,
               cell (series_of df r) "Volume" = Some v ->
               is_nan v = false /\ volume c = Py.trunc v)
          (filter pd.notna_row (pd.rows df)) candles.
Proof.
  intros H. apply normalize_rows in H.
  pose proof (kept_rows_notna df) as Hkept.
  induction H as [|r c kept candles Hc _ IH]; constructor.
  - intros v Hv. apply Forall_inv in Hkept.
    pose proof (notna_cell _ _ _ _ Hkept Hv) as Hnan.
    split; [exact Hnan|].
    apply candle_of_fields in Hc. destruct Hc as [_ Hvol].
    exact (volume_of_cell _ _ _ Hv Hnan Hvol).
  - apply IH. now apply Forall_inv_tail in Hkept.
Qed.

Lemma volume_is_the_cell_witness :
  exists candles,
    normalize Frames.every_other_nan = inr candles
    /\ map volume candles = [10; 30; 50]
    /\ Forall2 (fun r c => forall v,
                    cell (series_of Frames.every_other_nan r) "Volume" = Some v ->
                    is_nan v = false /\ volume c = Py.trunc v)
               (filter pd.notna_row (pd.rows Frames.every_other_nan)) candles.
Proof.
  eexists. split; [vm_compute; reflexivity|]. split; [reflexivity|].
  apply (volume_is_the_cell Frames.every_other_nan). reflexivity.
Defined.

(** X20: when the loop ends without an exception, every row with no missing
    value had exactly one cell under each of Open, High, Low and Close,
    and its candle holds these four cells unchanged: the prices are not
    rounded, ordered or checked against each other. *)
Theorem prices_are_the_cells df candles :
  normalize df = inr candles ->
  Forall2 (fun r c =>
             cell (series_of df r) "Open" = Some (open c)
             /\ cell (series_of df r) "High" = Some (high c)
             /\ cell (series_of df r) "Low" = Some (low c)
             /\ cell (series_of df r) "Close" = Some (close c))
          (filter pd.notna_row (pd.rows df)) candles.
Proof.
  intros H. apply normalize_rows in H.
  eapply Forall2_impl; [|exact H].
  intros r c Hc. now apply (candle_of_prices (fst r)).
Qed.

Lemma prices_are_the_cells_witness :
  exists candles,
    normalize Frames.no_volume = inr candles
    /\ map open candles = [100; 101]%float
    /\ Forall2 (fun r c =>
                  cell (series_of Frames.no_volume r) "Open" = Some (open c)
                  /\ cell (series_of Frames.no_volume r) "High" = Some (high c)
                  /\ cell (series_of Frames.no_volume r) "Low" = Some (low c)
                  /\ cell (series_of Frames.no_volume r) "Close"
                     = Some (close c))
               (filter pd.notna_row (pd.rows Frames.no_volume)) candles.
Proof.
  eexists. split; [vm_compute; reflexivity|]. split; [reflexivity|].
  apply (prices_are_the_cells Frames.no_volume). reflexivity.
Defined.
